(** * The rubric scorer of [backend/app/code_reviewer.py]

    A shallow embedding of [AiCodeReviewer]: the six static rubric rules,
    the extractor that reads scores and recommendations out of the
    feedback text, the score combiner and the recommendation combiner.

    Conventions of the embedding.
    - A Python [str] is a [string]; a character is a code point below 256
      and the character classes ([str.strip], [\w], [\d], [\s],
      [str.lower]) are CPython's on that range.
    - A Python [int] is a [Z], and [int] on a digit string refuses more
      than the interpreter's default of 4300 digits; a Python [float] is
      a binary64 value, a [spec_float] operated on with precision 53 and
      [emax] 1024.
    - A [dict] with string keys is a [gmap string _]; a [set] of strings is
      a [gset string], iterated in an order the program does not control.
    - A raised exception is the [Raise] case of [result]; code that talks
      to the parser or to the generative model runs in the monad [M],
      which also logs those calls. *)

From Stdlib Require Import ZArith Ascii String List Lia DecimalString.
From Stdlib Require Import Floats.SpecFloat.
From stdpp Require Import base option list gmap strings fin_maps fin_sets.

Local Open Scope string_scope.
Local Open Scope Z_scope.

(** ** Python strings *)

Module PyStr.

Definition code_point (c : ascii) : N := N_of_ascii c.

Definition in_range (lo hi : N) (c : ascii) : bool :=
  ((lo <=? code_point c) && (code_point c <=? hi))%N.

(** [Py_UNICODE_ISSPACE] below 256: tab to carriage return, the four
    separators 0x1c..0x1f, space, NEL and the no-break space. *)
Definition isspace (c : ascii) : bool :=
  in_range 9 13 c || in_range 28 32 c
  || (code_point c =? 133)%N || (code_point c =? 160)%N.

(** [Py_UNICODE_ISDECIMAL] below 256: the ASCII digits. *)
Definition isdecimal (c : ascii) : bool := in_range 48 57 c.

Definition is_ascii_lower (c : ascii) : bool := in_range 97 122 c.
Definition is_ascii_upper (c : ascii) : bool := in_range 65 90 c.

(** [Py_UNICODE_ISALNUM] below 256: ASCII letters and digits, the
    ordinal indicators, micro sign, superscript digits, vulgar
    fractions and the accented letters (all but the two operators
    0xd7 and 0xf7). *)
Definition isalnum (c : ascii) : bool :=
  is_ascii_lower c || is_ascii_upper c || isdecimal c
  || (code_point c =? 170)%N || in_range 178 179 c
  || (code_point c =? 181)%N || in_range 185 186 c
  || in_range 188 190 c
  || in_range 192 214 c || in_range 216 246 c || in_range 248 255 c.

(** The class [\w] of [re] on a [str] pattern. *)
Definition is_word (c : ascii) : bool :=
  isalnum c || (code_point c =? 95)%N.

(** [str.lower] on one character: A..Z and the accented capitals
    0xc0..0xde (but not the multiplication sign) move up by 32. *)
Definition lower_char (c : ascii) : ascii :=
  if is_ascii_upper c
     || (in_range 192 222 c && negb (code_point c =? 215)%N)
  then ascii_of_N (code_point c + 32)
  else c.

Fixpoint lower (s : string) : string :=
  match s with
  | EmptyString => EmptyString
  | String c s' => String (lower_char c) (lower s')
  end.

Definition len (s : string) : Z := Z.of_nat (String.length s).

Definition startswith (s p : string) : bool := String.prefix p s.

(** [s[n:]] *)
Fixpoint slice_from (n : nat) (s : string) : string :=
  match n, s with
  | O, _ => s
  | S _, EmptyString => EmptyString
  | S n', String _ s' => slice_from n' s'
  end.

Fixpoint repeat_char (c : ascii) (n : nat) : string :=
  match n with
  | O => EmptyString
  | S n' => String c (repeat_char c n')
  end.

(** [s.split(sep)] for a one-character separator: the pieces between
    the separators, always at least one piece. *)
Fixpoint split (sep : ascii) (s : string) : list string :=
  match s with
  | EmptyString => [EmptyString]
  | String c s' =>
      if Ascii.eqb c sep then EmptyString :: split sep s'
      else match split sep s' with
           | [] => [String c EmptyString]
           | piece :: pieces => String c piece :: pieces
           end
  end.

Fixpoint forallb_str (p : ascii -> bool) (s : string) : bool :=
  match s with
  | EmptyString => true
  | String c s' => p c && forallb_str p s'
  end.

Fixpoint lstrip (s : string) : string :=
  match s with
  | EmptyString => EmptyString
  | String c s' => if isspace c then lstrip s' else s
  end.

Fixpoint rev (s : string) : string :=
  match s with
  | EmptyString => EmptyString
  | String c s' => rev s' ++ String c EmptyString
  end.

Definition rstrip (s : string) : string := rev (lstrip (rev s)).

Definition strip (s : string) : string := rstrip (lstrip s).

(** Truth value of a [str]: non-empty. *)
Definition truthy (s : string) : bool :=
  match s with EmptyString => false | String _ _ => true end.

(** The longest prefix whose characters satisfy [p], and the rest. *)
Fixpoint span (p : ascii -> bool) (s : string) : string * string :=
  match s with
  | EmptyString => (EmptyString, EmptyString)
  | String c s' =>
      if p c then let '(run, rest) := span p s' in (String c run, rest)
      else (EmptyString, s)
  end.

Definition digit_value (c : ascii) : Z := Z.of_N (code_point c) - 48.

Fixpoint int_acc (acc : Z) (digits : string) : Z :=
  match digits with
  | EmptyString => acc
  | String c s' => int_acc (10 * acc + digit_value c) s'
  end.

(** The number a run of decimal digits denotes. *)
Definition decimal_value (digits : string) : Z := int_acc 0 digits.

(** [str(n)] for a natural number. *)
Definition of_nat (n : nat) : string := NilEmpty.string_of_uint (Nat.to_uint n).

Definition newline : ascii := ascii_of_N 10.

Definition lines (s : string) : list string := split newline s.

End PyStr.

(** A [for] loop that updates one local variable: the body, the items
    and the value before the loop. *)
Definition loop {A S : Type} (body : S -> A -> S) (items : list A) (init : S) : S :=
  fold_left body items init.

(** ** The formatting rule (works on the text only) *)

Definition formatting_penalised (line : string) : bool :=
  (79 <? PyStr.len line)
  || (PyStr.truthy (PyStr.strip line)
      && negb (PyStr.startswith line (PyStr.repeat_char " " 4))).

Definition _check_formatting (code : string) : Z :=
  let score :=
    loop (fun score line =>
            if formatting_penalised line then score - 2 else score)
         (PyStr.lines code) 15 in
  Z.max 0 score.

(** ** Exceptions and results *)

Inductive exception :=
| SyntaxError                      (* and its subclasses *)
| ValueError (msg : string)
| AttributeError (msg : string)
| KeyError (key : string)
| OverflowError (msg : string)
| ZeroDivisionError (msg : string)
| ExternalError (msg : string).    (* anything the model client raises *)

Inductive result (A : Type) :=
| Ok (a : A)
| Raise (e : exception).
Arguments Ok {A} a.
Arguments Raise {A} e.

#[global] Instance result_ret : MRet result := fun A a => Ok a.
#[global] Instance result_bind : MBind result :=
  fun A B f r => match r with Ok a => f a | Raise e => Raise e end.

(** A [for] loop whose body can raise: the first exception ends it. *)
Fixpoint loop_result {A S : Type} (body : S -> A -> result S)
    (items : list A) (init : S) : result S :=
  match items with
  | [] => Ok init
  | x :: items' => s ← body init x; loop_result body items' s
  end.

(** ** [int] on a run of decimal digits *)

Module Builtins.

(** [sys.int_info.default_max_str_digits]: the number of digits beyond
    which [int] refuses a string, unless the interpreter is configured
    otherwise. *)
Definition int_max_str_digits : nat := 4300.

Definition exceeds_the_limit (digits : nat) : string :=
  "Exceeds the limit (" ++ PyStr.of_nat int_max_str_digits
  ++ " digits) for integer string conversion: value has "
  ++ PyStr.of_nat digits
  ++ " digits; use sys.set_int_max_str_digits() to increase the limit".

(** [int(digits)] for a non-empty run of decimal digits, the only
    argument the extractor passes: leading zeros count as digits. *)
Definition int (digits : string) : result Z :=
  if (int_max_str_digits <? String.length digits)%nat
  then Raise (ValueError (exceeds_the_limit (String.length digits)))
  else Ok (PyStr.decimal_value digits).

End Builtins.

(** ** Python floats: IEEE 754 binary64 *)

Module PyFloat.

Definition prec : Z := 53.
Definition emax : Z := 1024.

Definition mul : spec_float -> spec_float -> spec_float := SFmul prec emax.
Definition add : spec_float -> spec_float -> spec_float := SFadd prec emax.

(** [float(n)] for an [int]: the nearest binary64 value, ties to even. *)
Definition of_int (n : Z) : result spec_float :=
  match binary_normalize prec emax n 0 false with
  | S754_infinity _ => Raise (OverflowError "int too large to convert to float")
  | x => Ok x
  end.

(** [a / b] on two [int]s: the correctly rounded quotient. *)
Definition int_truediv (a b : Z) : result spec_float :=
  match a, b with
  | _, Z0 => Raise (ZeroDivisionError "division by zero")
  | Z0, _ => Ok (S754_zero (b <? 0))
  | _, _ =>
      match SFdiv prec emax
              (S754_finite (a <? 0) (Z.to_pos (Z.abs a)) 0)
              (S754_finite (b <? 0) (Z.to_pos (Z.abs b)) 0) with
      | S754_infinity _ =>
          Raise (OverflowError "integer division result too large for a float")
      | x => Ok x
      end
  end.

(** [n * x] and [x * n] with [n] an [int]: [n] is converted first. *)
Definition int_mul (n : Z) (x : spec_float) : result spec_float :=
  fn ← of_int n; mret (mul fn x).

Definition mul_int (x : spec_float) (n : Z) : result spec_float :=
  fn ← of_int n; mret (mul x fn).

(** The integer nearest to [m * 2^e], ties to the even one. *)
Definition round_half_even (m e : Z) : Z :=
  if 0 <=? e then m * 2 ^ e
  else
    let d := 2 ^ (- e) in
    let q := m / d in
    let r := m mod d in
    match 2 * r ?= d with
    | Lt => q
    | Gt => q + 1
    | Eq => if Z.even q then q else q + 1
    end.

(** [round(x)] with no digits argument. *)
Definition round (x : spec_float) : result Z :=
  match x with
  | S754_zero _ => Ok 0
  | S754_finite s m e => Ok (cond_Zopp s (round_half_even (Z.pos m) e))
  | S754_infinity _ =>
      Raise (OverflowError "cannot convert float infinity to integer")
  | S754_nan => Raise (ValueError "cannot convert float NaN to integer")
  end.

(** The literals [0.7] and [0.3]: the binary64 values nearest to 7/10
    and 3/10. *)
Definition lit_0_7 : spec_float := S754_finite false 6305039478318694 (-53).
Definition lit_0_3 : spec_float := S754_finite false 5404319552844595 (-54).

End PyFloat.

(** ** The syntax tree of the [ast] module

    The node classes the rubric rules look at have a constructor of their
    own, with their child-bearing fields in the order of [_fields]; every
    other node class is a [Node] carrying its class name and its children
    in the order [ast.iter_child_nodes] yields them. *)

Inductive constant :=
| CStr (s : string)
| CBytes (s : string)
| CInt (n : Z)
| CFloat
| CComplex
| CBool (b : bool)
| CNone
| CEllipsis.

#[warnings="-register-all"]
Inductive ast :=
| Module (body type_ignores : list ast)
| FunctionDef (name : string) (args : ast) (body decorator_list : list ast)
              (returns : option ast) (type_params : list ast)
| AsyncFunctionDef (name : string) (args : ast) (body decorator_list : list ast)
                   (returns : option ast) (type_params : list ast)
| Arguments (posonlyargs args : list ast) (vararg : option ast)
            (kwonlyargs kw_defaults : list ast) (kwarg : option ast)
            (defaults : list ast)
| Name (id : string) (ctx : ast)
| Call (func : ast) (args keywords : list ast)
| Expr (value : ast)
| Constant (value : constant)
| Global (names : list string)
| Try (body handlers orelse finalbody : list ast)
| ExceptHandler (type : option ast) (name : option string) (body : list ast)
| Node (class_name : string) (children : list ast).

Definition opt_child (o : option ast) : list ast :=
  match o with Some t => [t] | None => [] end.

(** [ast.iter_child_nodes] *)
Definition iter_child_nodes (t : ast) : list ast :=
  match t with
  | Module body type_ignores => body ++ type_ignores
  | FunctionDef _ args body decorator_list returns type_params
  | AsyncFunctionDef _ args body decorator_list returns type_params =>
      args :: body ++ decorator_list ++ opt_child returns ++ type_params
  | Arguments posonlyargs args vararg kwonlyargs kw_defaults kwarg defaults =>
      posonlyargs ++ args ++ opt_child vararg ++ kwonlyargs ++ kw_defaults
      ++ opt_child kwarg ++ defaults
  | Name _ ctx => [ctx]
  | Call func args keywords => func :: args ++ keywords
  | Expr value => [value]
  | Constant _ => []
  | Global _ => []
  | Try body handlers orelse finalbody =>
      body ++ handlers ++ orelse ++ finalbody
  | ExceptHandler type _ body => opt_child type ++ body
  | Node _ children => children
  end.

(** Every node of a tree, the root first (depth first). *)
Fixpoint nodes (t : ast) : list ast :=
  let many := flat_map nodes in
  let opt := fun o => match o with Some c => nodes c | None => [] end in
  t :: match t with
       | Module body type_ignores => many body ++ many type_ignores
       | FunctionDef _ args body decorator_list returns type_params
       | AsyncFunctionDef _ args body decorator_list returns type_params =>
           nodes args ++ many body ++ many decorator_list ++ opt returns
           ++ many type_params
       | Arguments posonlyargs args vararg kwonlyargs kw_defaults kwarg
                   defaults =>
           many posonlyargs ++ many args ++ opt vararg ++ many kwonlyargs
           ++ many kw_defaults ++ opt kwarg ++ many defaults
       | Name _ ctx => nodes ctx
       | Call func args keywords => nodes func ++ many args ++ many keywords
       | Expr value => nodes value
       | Constant _ => []
       | Global _ => []
       | Try body handlers orelse finalbody =>
           many body ++ many handlers ++ many orelse ++ many finalbody
       | ExceptHandler type _ body => opt type ++ many body
       | Node _ children => many children
       end.

(** [ast.walk]: a queue of nodes still to visit; the node at the front
    is yielded and its children join the back.  The loop stops when the
    queue is empty; [fuel] bounds the number of iterations. *)
Fixpoint walk_queue (fuel : nat) (todo : list ast) : list ast :=
  match fuel, todo with
  | O, _ => []
  | _, [] => []
  | S fuel', node :: todo' =>
      node :: walk_queue fuel' (todo' ++ iter_child_nodes node)
  end.

Definition walk (tree : ast) : list ast :=
  walk_queue (length (nodes tree)) [tree].

(** ** The rules that work on the tree *)

(** [re.match(r'^[a-z][a-z0-9_]*$', name)]: a lower-case letter, the
    longest run of lower-case letters, digits and underscores, and then
    the end of the string ([$] also matches before a final newline). *)
Definition is_snake_tail (c : ascii) : bool :=
  PyStr.is_ascii_lower c || PyStr.isdecimal c
  || (PyStr.code_point c =? 95)%N.

Definition at_dollar (rest : string) : bool :=
  match rest with
  | EmptyString => true
  | String c EmptyString => Ascii.eqb c PyStr.newline
  | _ => false
  end.

Definition match_snake_case (name : string) : bool :=
  match name with
  | EmptyString => false
  | String c rest =>
      PyStr.is_ascii_lower c && at_dollar (snd (PyStr.span is_snake_tail rest))
  end.

Definition _check_naming_conventions (tree : ast) : Z :=
  let score :=
    loop (fun score node =>
            match node with
            | FunctionDef name _ _ _ _ _
            | AsyncFunctionDef name _ _ _ _ _
            | Name name _ =>
                if negb (match_snake_case name) then score - 2 else score
            | _ => score
            end)
         (walk tree) 10 in
  Z.max 0 score.

(** [node.args.args] of a function definition, whose [args] field the
    parser always fills with an [arguments] node. *)
Definition positional_args (args : ast) : list ast :=
  match args with
  | Arguments _ args _ _ _ _ _ => args
  | _ => []
  end.

Definition _check_modularity (tree : ast) : Z :=
  let score :=
    loop (fun score node =>
            match node with
            | FunctionDef _ args body _ _ _
            | AsyncFunctionDef _ args body _ _ _ =>
                let score :=
                  if 20 <? Z.of_nat (length body) then score - 5 else score in
                if 5 <? Z.of_nat (length (positional_args args))
                then score - 3 else score
            | _ => score
            end)
         (walk tree) 20 in
  Z.max 0 score.

(** [isinstance(node, ast.Expr) and isinstance(node.value, ast.Str)]:
    an expression statement whose value is a string constant.  ([ast.Str]
    is the legacy name under which [isinstance] accepts a [Constant]
    that holds a [str], and no other node; the model is of the
    interpreters that provide the name.) *)
Definition is_docstring (node : ast) : bool :=
  match node with
  | Expr (Constant (CStr _)) => true
  | _ => false
  end.

Definition count_docstrings (tree : ast) : Z :=
  loop (fun total node => if is_docstring node then total + 1 else total)
       (walk tree) 0.

Definition _check_reusability (tree : ast) : Z :=
  let score := 15 in
  let function_calls : gmap string Z :=
    loop (fun calls node =>
            match node with
            | Call (Name id _) _ _ => <[id := default 0 (calls !! id) + 1]> calls
            | _ => calls
            end)
         (walk tree) ∅ in
  Z.max 0 (score - map_fold (fun _ count total =>
                               if 3 <? count then total + 2 else total)
                            0 function_calls).

Definition is_except_handler (h : ast) : bool :=
  match h with ExceptHandler _ _ _ => true | _ => false end.

Definition _check_best_practices (tree : ast) : Z :=
  let score :=
    loop (fun score node =>
            match node with
            | Global _ => score - 5
            | Try _ handlers _ _ =>
                if negb (existsb is_except_handler handlers)
                then score - 3 else score
            | _ => score
            end)
         (walk tree) 20 in
  Z.max 0 score.

(** ** Calls to the outside: the parser and the generative model *)

Inductive event :=
| EvParse (code : string)          (* [ast.parse(code)] *)
| EvGenerate (prompt : string).    (* [self.model.generate_content(prompt)] *)

(** A computation reads the log of calls made so far and returns its
    result with the log extended by its own calls. *)
Definition M (A : Type) : Type := list event -> result A * list event.

#[global] Instance M_ret : MRet M := fun A a log => (Ok a, log).
#[global] Instance M_bind : MBind M :=
  fun A B f m log =>
    match m log with
    | (Ok a, log') => f a log'
    | (Raise e, log') => (Raise e, log')
    end.

Definition raise {A : Type} (e : exception) : M A := fun log => (Raise e, log).

Definition lift {A : Type} (r : result A) : M A := fun log => (r, log).

(** [try: m  except <caught>: handler] *)
Definition try_except {A : Type} (m : M A) (caught : exception -> bool)
    (handler : M A) : M A :=
  fun log =>
    match m log with
    | (Ok a, log') => (Ok a, log')
    | (Raise e, log') => if caught e then handler log' else (Raise e, log')
    end.

Definition is_SyntaxError (e : exception) : bool :=
  match e with SyntaxError => true | _ => false end.

(** [d[key]] *)
Definition getitem {V : Type} (d : gmap string V) (key : string) : result V :=
  match d !! key with
  | Some v => Ok v
  | None => Raise (KeyError key)
  end.

(** [d.get(key, fallback)] *)
Definition get {V : Type} (d : gmap string V) (key : string) (fallback : V) : V :=
  default fallback (d !! key).

(** [self.categories], in the order the dictionary was written. *)
Definition categories_items : list (string * Z) :=
  [("naming", 10); ("modularity", 20); ("comments", 20);
   ("formatting", 15); ("reusability", 15); ("best_practices", 20)].

Definition categories : gmap string Z := list_to_map categories_items.

Record ai_analysis := {
  ai_detailed_feedback : string;
  ai_recommendations : list string;
  ai_scores : gmap string Z
}.

Record review := {
  overall_score : Z;
  breakdown : gmap string Z;
  recommendations : list string;
  detailed_feedback : string
}.

(** ** The extractor *)

(** [re.match(r"(\w+):\s*(\d+)", line)]: the two groups, when the line
    matches.  Each quantifier takes the longest run it can; none of them
    can give a character back, since the character that must follow a
    run is outside the class of the run. *)
Definition match_score_line (line : string) : option (string * string) :=
  let '(word, rest) := PyStr.span PyStr.is_word line in
  match word, rest with
  | String _ _, String ":" rest =>
      let '(_, rest) := PyStr.span PyStr.isspace rest in
      match PyStr.span PyStr.isdecimal rest with
      | (String d ds, _) => Some (word, String d ds)
      | _ => None
      end
  | _, _ => None
  end.

Definition _extract_scores (feedback : string) : result (gmap string Z) :=
  loop_result (fun scores line =>
                 match match_score_line line with
                 | Some (group1, group2) =>
                     value ← Builtins.int group2;
                     mret (<[PyStr.lower group1 := value]> scores)
                 | None => mret scores
                 end)
              (PyStr.lines feedback) ∅.

Definition _extract_recommendations (feedback : string) : list string :=
  omap (fun line =>
          if PyStr.startswith line "- " then Some (PyStr.slice_from 2 line)
          else None)
       (PyStr.lines feedback).

(** ** The score combiner *)

Definition combined_score (static_score external_score weight : Z) : result Z :=
  s ← PyFloat.int_mul static_score PyFloat.lit_0_7;
  e ← PyFloat.int_mul external_score PyFloat.lit_0_3;
  w ← PyFloat.int_truediv weight 100;
  PyFloat.round (PyFloat.mul (PyFloat.add s e) w).

(** A dictionary comprehension over [items]: the values are computed
    and stored in order, and the first exception ends the comprehension. *)
Fixpoint dict_comprehension (value : string -> Z -> result Z)
    (items : list (string * Z)) (d : gmap string Z) : result (gmap string Z) :=
  match items with
  | [] => Ok d
  | (key, x) :: items' =>
      v ← value key x;
      dict_comprehension value items' (<[key := v]> d)
  end.

Definition _combine_metrics (static_metrics ai_metrics : gmap string Z)
    : result (gmap string Z) :=
  dict_comprehension
    (fun category weight =>
       combined_score (get static_metrics category 0)
                      (get ai_metrics category 0) weight)
    categories_items ∅.

(** [sum(d.values())] *)
Definition sum_values (d : gmap string Z) : Z :=
  map_fold (fun _ v total => total + v) 0 d.

Definition _calculate_overall_score (metrics : gmap string Z) : result Z :=
  ratio ← PyFloat.int_truediv (sum_values metrics) (sum_values categories);
  scaled ← PyFloat.mul_int ratio 100;
  PyFloat.round scaled.

Section Reviewer.

(** The parser, the generative model behind [generate_content] (the
    text of its response, or what it raised) and the order in which a
    set of strings is iterated. *)
Variable ast_parse : string -> result ast.
Variable generate_content : string -> result string.
Variable iter_set : gset string -> list string.

Definition parse (code : string) : M ast :=
  fun log => (ast_parse code, (log ++ [EvParse code])%list).

Definition generate (prompt : string) : M string :=
  fun log => (generate_content prompt, (log ++ [EvGenerate prompt])%list).

(** *** The recommendation combiner *)

Definition snake_case_advice : string :=
  "Use snake_case for function and variable names.".
Definition long_function_advice : string :=
  "Consider breaking down long functions into smaller, focused functions.".

Definition static_recommendations_of (naming modularity : Z) : list string :=
  let static_recommendations := [] in
  let static_recommendations :=
    if naming <? 8 then (static_recommendations ++ [snake_case_advice])%list
    else static_recommendations in
  if modularity <? 15
  then (static_recommendations ++ [long_function_advice])%list
  else static_recommendations.

Definition _combine_recommendations (static_metrics : gmap string Z)
    (ai_recommendations : list string) : result (list string) :=
  naming ← getitem static_metrics "naming";
  modularity ← getitem static_metrics "modularity";
  let static_recommendations := static_recommendations_of naming modularity in
  mret (take 5 (iter_set
                  (list_to_set
                     (static_recommendations ++ ai_recommendations)%list))).

(** *** The static scorer for Python *)

Definition _check_comments (code : string) : M Z :=
  let score := 20 in
  tree ← parse code;
  let docstrings := count_docstrings tree in
  mret (Z.min 20 (score + docstrings * 5)).

Definition _analyze_python (code : string) : M (gmap string Z) :=
  parsed ← try_except (tree ← parse code; mret (Some tree))
                       is_SyntaxError (mret None);
  match parsed with
  | None => mret ((fun _ => 0) <$> categories)
  | Some tree =>
      let naming := _check_naming_conventions tree in
      let modularity := _check_modularity tree in
      comments ← _check_comments code;
      let formatting := _check_formatting code in
      let reusability := _check_reusability tree in
      let best_practices := _check_best_practices tree in
      mret (list_to_map
              [("naming", naming); ("modularity", modularity);
               ("comments", comments); ("formatting", formatting);
               ("reusability", reusability);
               ("best_practices", best_practices)])
  end.

(** *** The external feedback *)

(** The prompt: the f-string of [_get_ai_analysis], line by line.  Every
    line of the template is indented by eight spaces, and the text ends
    with a newline and that indentation. *)
Definition prompt_for (code language : string) (context : option string)
    : string :=
  let indent := PyStr.repeat_char " " 8 in
  String.concat (String PyStr.newline EmptyString)
    [ "";
      indent ++ "You are an expert in " ++ language
        ++ " code review. Analyze the provided code for:";
      indent ++ "1. Code Structure and Organization";
      indent ++ "2. Naming Conventions";
      indent ++ "3. Error Handling";
      indent ++ "4. Performance Optimization";
      indent ++ "5. Security Practices";
      indent ++ "6. Documentation and Comments";
      indent ++ "7. Best Practices";
      indent ++ " ";
      indent ++ "Provide:";
      indent ++ "- Detailed feedback with examples";
      indent ++ "- Specific recommendations";
      indent ++ "- Score each category out of 100";
      indent ++ "- Provide at least 3 recommendations for improvement";
      indent;
      indent ++ "Code to review:";
      indent ++ "```" ++ language;
      indent ++ code;
      indent ++ "```";
      indent;
      indent ++ "Context: "
        ++ match context with
           | Some c =>
               if PyStr.truthy c then c else "No specific context provided"
           | None => "No specific context provided"
           end;
      indent ].

Definition _get_ai_analysis (code language : string) (context : option string)
    : M ai_analysis :=
  let prompt := prompt_for code language context in
  text_response ← generate prompt;
  let recommendations := _extract_recommendations text_response in
  scores ← lift (_extract_scores text_response);
  mret {| ai_detailed_feedback := text_response;
          ai_recommendations := recommendations;
          ai_scores := scores |}.

(** *** The analysis of one request *)

Definition language_map : gmap string string :=
  list_to_map [("py", "python"); ("js", "javascript"); ("jsx", "javascript")].

Definition analyze_code (code language : string) (context : option string)
    : M review :=
  let language := get language_map language language in
  static_analysis ←
    (if String.eqb language "python" then _analyze_python code
     else if bool_decide (language ∈ ["javascript"; "jsx"])
          then raise (AttributeError
                 "'AiCodeReviewer' object has no attribute '_analyze_javascript'")
          else raise (ValueError ("Unsupported language: " ++ language)));
  ai ← _get_ai_analysis code language context;
  combined_metrics ← lift (_combine_metrics static_analysis (ai_scores ai));
  recommendations ←
    lift (_combine_recommendations static_analysis (ai_recommendations ai));
  overall ← lift (_calculate_overall_score combined_metrics);
  mret {| overall_score := overall;
          breakdown := combined_metrics;
          recommendations := take 5 recommendations;
          detailed_feedback := ai_detailed_feedback ai |}.

End Reviewer.

(** * The vocabulary of the statements *)

(** How many of the items satisfy [p]. *)
Definition count_where {A : Type} (p : A → bool) (items : list A) : Z :=
  Z.of_nat (length (filter (fun x => p x = true) items)).

(** The one-character string that separates lines. *)
Definition nl : string := String PyStr.newline EmptyString.

(** The number of space characters a line begins with. *)
Definition leading_spaces (line : string) : Z :=
  PyStr.len (fst (PyStr.span (fun c => Ascii.eqb c " ") line)).

(** A blank line: nothing but white space. *)
Definition is_blank (line : string) : bool :=
  PyStr.forallb_str PyStr.isspace line.

(** The rule as the specification words it: a line costs two points
    when it is longer than 79 characters, or is not blank and the run of
    spaces it begins with is not exactly four long. *)
Definition penalised_exactly_four (line : string) : bool :=
  (79 <? PyStr.len line)
  || (negb (is_blank line) && negb (leading_spaces line =? 4)).

(** The score that rule gives. *)
Definition score_exactly_four (code : string) : Z :=
  Z.max 0 (15 - 2 * count_where penalised_exactly_four (PyStr.lines code)).

(** The same rule with a run of four or more spaces. *)
Definition penalised_under_four (line : string) : bool :=
  (79 <? PyStr.len line)
  || (negb (is_blank line) && negb (4 <=? leading_spaces line)).

(** A text that is a single line. *)
Definition no_newline (line : string) : bool :=
  PyStr.forallb_str (fun c => negb (Ascii.eqb c PyStr.newline)) line.

(** An [if] inside a function body: four and eight spaces. *)
Definition nested_block : string :=
  "    if x:" ++ nl ++ "        return x".

(** The number of expression statements that are a bare string literal,
    counted over the whole tree. *)
Definition docstring_statements (tree : ast) : Z :=
  count_where is_docstring (nodes tree).

(** The dictionary with 0 for each of the six categories. *)
Definition all_zero : gmap string Z :=
  list_to_map
    [("naming", 0); ("modularity", 0); ("comments", 0);
     ("formatting", 0); ("reusability", 0); ("best_practices", 0)].

(** The tree of a module made of two string literal statements. *)
Definition docstring_module : ast :=
  Module [Expr (Constant (CStr "doc")); Expr (Constant (CStr "more"))] [].

(** A run ends where the text ends or at a character outside the class. *)
Definition stops (p : ascii → bool) (rest : string) : bool :=
  match rest with
  | EmptyString => true
  | String c _ => negb (p c)
  end.

(** The pattern in the words of the specification: at the start of the
    line one or more word characters, a colon, white space or none, and
    one or more digits.  [word] and [digits] are the two groups; the
    second group runs to the last digit of its run. *)
Definition score_line (line word digits : string) : Prop :=
  ∃ spaces rest : string,
    line = word ++ ":" ++ spaces ++ digits ++ rest
    ∧ PyStr.truthy word = true ∧ PyStr.forallb_str PyStr.is_word word = true
    ∧ PyStr.forallb_str PyStr.isspace spaces = true
    ∧ PyStr.truthy digits = true ∧ PyStr.forallb_str PyStr.isdecimal digits = true
    ∧ stops PyStr.isdecimal rest = true.

(** What one line records: the lower-cased word and the integer its
    digits denote. *)
Definition recorded (line : string) : option (string * Z) :=
  match match_score_line line with
  | Some (word, digits) => Some (PyStr.lower word, PyStr.decimal_value digits)
  | None => None
  end.

(** A line of the pattern whose run of digits is longer than [int]
    converts. *)
Definition too_long (line : string) : bool :=
  match match_score_line line with
  | Some (_, digits) =>
      (Builtins.int_max_str_digits <? String.length digits)%nat
  | None => false
  end.

(** No line of the feedback is too long. *)
Definition convertible (feedback_lines : list string) : Prop :=
  Forall (fun line => too_long line = false) feedback_lines.

(** The body of the loop of [_extract_scores]. *)
Definition score_step (scores : gmap string Z) (line : string)
    : result (gmap string Z) :=
  match match_score_line line with
  | Some (group1, group2) =>
      value ← Builtins.int group2;
      mret (<[PyStr.lower group1 := value]> scores)
  | None => mret scores
  end.

(** Recording one line in the scores so far. *)
Definition record_line (scores : gmap string Z) (line : string)
    : gmap string Z :=
  match recorded line with
  | Some (key, value) => <[key := value]> scores
  | None => scores
  end.

(** A line of the pattern with 4301 digits. *)
Definition long_score_line : string := "a: " ++ PyStr.repeat_char "1" 4301.

(** The value a line records for [key], if it records [key]. *)
Definition value_for (key line : string) : option Z :=
  match recorded line with
  | Some (k, v) => if decide (k = key) then Some v else None
  | None => None
  end.

(** The value the last line recording [key] gives, if any line does. *)
Definition last_recorded (key : string) (feedback_lines : list string)
    : option Z :=
  last (omap (value_for key) feedback_lines).

(** The two lines of the extractor example. *)
Definition sample_feedback : string :=
  "Naming: 85" ++ nl ++ "- Use more descriptive variable names".

(** The same two lines after a line that records another category. *)
Definition noisy_feedback : string :=
  "Formatting: 70" ++ nl ++ "Naming: 85" ++ nl
  ++ "- Use more descriptive variable names".

(** The integers from 0 to [n - 1]. *)
Definition zrange (n : nat) : list Z := Z.of_nat <$> seq 0 n.

(** One thousand times the exact value of
    (s * 0.7 + e * 0.3) * (weight / 100), which is
    (7 * s + 3 * e) * weight / 1000. *)
Definition exact_thousandths (weight s e : Z) : Z := (7 * s + 3 * e) * weight.

(** [v] is an integer nearest to that exact value: it is at most one
    half away from it.  Unless the exact value lies midway between two
    integers, one integer only is that near. *)
Definition nearest_to_exact (weight s e v : Z) : Prop :=
  Z.abs (1000 * v - exact_thousandths weight s e) ≤ 500.

(** A value was returned, lies between 0 and [weight] and is nearest to
    the exact value. *)
Definition within (weight s e : Z) (r : result Z) : bool :=
  match r with
  | Ok v =>
      (0 <=? v) && (v <=? weight)
      && (Z.abs (1000 * v - exact_thousandths weight s e) <=? 500)
  | Raise _ => false
  end.

(** Every pair of scores from 0 to 100 combines to a value from 0 to
    [weight] that is nearest to the exact value. *)
Definition bounded_for (weight : Z) : bool :=
  forallb (fun s =>
             forallb (fun e => within weight s e (combined_score s e weight))
                     (zrange 101))
          (zrange 101).

(** Every score of the dictionary is between 0 and 100. *)
Definition scores_in_range (d : gmap string Z) : Prop :=
  ∀ category v, d !! category = Some v → 0 ≤ v ≤ 100.

(** Scaling a sum from 0 to 100 by the total of the maxima gives the
    sum back. *)
Definition scaled_back (total : Z) : bool :=
  match (ratio ← PyFloat.int_truediv total 100;
         scaled ← PyFloat.mul_int ratio 100;
         PyFloat.round scaled) with
  | Ok v => v =? total
  | Raise _ => false
  end.

(** The dictionary with 100 for each of the six categories. *)
Definition full_marks : gmap string Z :=
  list_to_map
    [("naming", 100); ("modularity", 100); ("comments", 100);
     ("formatting", 100); ("reusability", 100); ("best_practices", 100)].

(** The dictionary of six given values, one for each category. *)
Definition six (n m c f r b : Z) : gmap string Z :=
  list_to_map
    [("naming", n); ("modularity", m); ("comments", c);
     ("formatting", f); ("reusability", r); ("best_practices", b)].

(** Every value is between 0 and the maximum of its category. *)
Definition within_maxima (metrics : gmap string Z) : Prop :=
  ∀ category v weight,
    metrics !! category = Some v → categories !! category = Some weight →
    0 ≤ v ≤ weight.

(** The language after the aliases of the specification: [py] stands
    for [python], [js] and [jsx] stand for [javascript]. *)
Definition normalized (language : string) : string :=
  if decide (language = "py") then "python"
  else if decide (language = "js" ∨ language = "jsx") then "javascript"
  else language.

(** A request with a one-line function and a stubbed model response. *)
Definition sample_code : string := "def f(x):" ++ nl ++ "    return x".

(** The tree [ast.parse] builds for [sample_code]. *)
Definition sample_tree : ast :=
  Module
    [FunctionDef "f"
       (Arguments [] [Node "arg" []] None [] [] None [])
       [Node "Return" [Name "x" (Node "Load" [])]]
       [] None []]
    [].

Definition sample_response : string :=
  String.concat nl
    ["Naming: 90"; "Modularity: 90"; "Comments: 90"; "Formatting: 90";
     "Reusability: 90"; "Best_practices: 90"; "- Add docstrings"].

(** * Further models and vocabulary *)

(** ** The HTTP endpoints of [backend/app/main.py] *)

Module Main.

(** What the body of an endpoint can raise: an exception of the
    interpreter or of the reviewer, or the [HTTPException] of the web
    framework.  All of them derive from [Exception], so the handler
    [except Exception] of an endpoint catches each of them.  The
    arguments of [CodeReviewResponse] have the types its fields
    declare, and building it is taken to succeed. *)
Inductive thrown :=
| PyExc (e : exception)
| HTTPException (status_code : Z) (detail : string).

(** [CodeReviewRequest] of [backend/app/models.py]. *)
Record CodeReviewRequest := {
  code : string;
  language : string;
  context : option string;
  request_file_name : option string
}.

(** [CodeReviewResponse] of [backend/app/models.py]. *)
Record CodeReviewResponse := {
  response_overall_score : Z;
  response_breakdown : gmap string Z;
  response_recommendations : list string;
  response_detailed_feedback : string;
  response_file_name : option string;
  response_language : option string
}.

(** An uploaded file: its name, if it has one, and what reading it
    gives. *)
Record UploadFile := {
  filename : option string;
  read : result (list Byte.byte)
}.

(** What an endpoint hands to the framework: the response, or the
    [HTTPException] it raised. *)
Inductive outcome :=
| Returned (response : CodeReviewResponse)
| Raised (status_code : Z) (detail : string).

(** The body of a [try] block: it returns or raises, and logs the calls
    of the reviewer. *)
Definition T (A : Type) : Type := list event -> (thrown + A) * list event.

#[global] Instance T_ret : MRet T := fun A a log => (inr a, log).
#[global] Instance T_bind : MBind T :=
  fun A B f m log =>
    match m log with
    | (inr a, log') => f a log'
    | (inl t, log') => (inl t, log')
    end.

Definition throw {A : Type} (t : thrown) : T A := fun log => (inl t, log).

(** A computation of the reviewer, run inside an endpoint. *)
Definition of_reviewer {A : Type} (m : M A) : T A :=
  fun log =>
    match m log with
    | (Ok a, log') => (inr a, log')
    | (Raise e, log') => (inl (PyExc e), log')
    end.

Definition of_result {A : Type} (r : result A) : T A :=
  of_reviewer (lift r).

(** [try: body  except Exception as e: raise HTTPException(500, prefix + str(e))] *)
Definition reported (str : thrown -> string) (prefix : string)
    (body : T CodeReviewResponse) : list event -> outcome * list event :=
  fun log =>
    match body log with
    | (inr response, log') => (Returned response, log')
    | (inl e, log') => (Raised 500 (prefix ++ str e), log')
    end.

(** [filename.split('.')[-1]]; the list of pieces is never empty. *)
Definition extension (name : string) : string :=
  List.last (PyStr.split "." name) EmptyString.

Definition unsupported_file_type : string :=
  "Unsupported file type. Only .py, .js, and .jsx files are supported.".

Section Endpoints.

(** The collaborators of the reviewer, the decoder of [bytes.decode()]
    and [str] on what was raised. *)
Variable ast_parse : string -> result ast.
Variable generate_content : string -> result string.
Variable iter_set : gset string -> list string.
Variable decode : list Byte.byte -> result string.
Variable str : thrown -> string.

Definition code_reviewer_analyze_code : string -> string -> option string -> M review :=
  analyze_code ast_parse generate_content iter_set.

Definition analyze_code (request : CodeReviewRequest)
    : list event -> outcome * list event :=
  reported str "Error analyzing code: "
    (result ← of_reviewer
       (code_reviewer_analyze_code (code request) (language request)
          (context request));
     mret {| response_overall_score := overall_score result;
             response_breakdown := breakdown result;
             response_recommendations := recommendations result;
             response_detailed_feedback := detailed_feedback result;
             response_file_name := None;
             response_language := Some (language request) |}).

Definition upload_code (file : UploadFile)
    : list event -> outcome * list event :=
  reported str "Error processing file: "
    (content ← of_result (read file);
     name ← match filename file with
            | Some name => mret name
            | None => throw (PyExc (AttributeError
                "'NoneType' object has no attribute 'split'"))
            end;
     let language := extension name in
     if negb (bool_decide (language ∈ ["py"; "js"; "jsx"]))
     then throw (HTTPException 400 unsupported_file_type)
     else
       text ← of_result (decode content);
       result ← of_reviewer
         (code_reviewer_analyze_code text language (Some ("File: " ++ name)));
       mret {| response_overall_score := overall_score result;
               response_breakdown := breakdown result;
               response_recommendations := recommendations result;
               response_detailed_feedback := detailed_feedback result;
               response_file_name := None;
               response_language := Some language |}).

End Endpoints.

End Main.

(** ** More vocabulary: what the tree rules count *)

(** A function definition or a name whose identifier is not in snake
    case. *)
Definition offending_name (node : ast) : bool :=
  match node with
  | FunctionDef name _ _ _ _ _
  | AsyncFunctionDef name _ _ _ _ _
  | Name name _ => negb (match_snake_case name)
  | _ => false
  end.



Definition is_global (node : ast) : bool :=
  match node with Global _ => true | _ => false end.

(** A [try] statement without a handler. *)
Definition bare_try (node : ast) : bool :=
  match node with
  | Try _ handlers _ _ => negb (existsb is_except_handler handlers)
  | _ => false
  end.

(** The identifier a call names, when the callee is a plain name. *)
Definition callee (node : ast) : option string :=
  match node with
  | Call (Name id _) _ _ => Some id
  | _ => None
  end.

(** Counting one node in the dictionary of calls of the reusability
    rule. *)
Definition count_call (calls : gmap string Z) (node : ast) : gmap string Z :=
  match callee node with
  | Some id => <[id := default 0 (calls !! id) + 1]> calls
  | None => calls
  end.

(** How many calls in the tree name [id]. *)
Definition calls_to (id : string) (tree : ast) : Z :=
  count_where (fun node => bool_decide (callee node = Some id)) (nodes tree).

(** The identifiers called more than three times. *)
Definition overused (tree : ast) : gset string :=
  filter (fun id => 3 < calls_to id tree)
         (list_to_set (omap callee (nodes tree))).

(** Snake case: a lower-case letter followed by lower-case letters,
    digits and underscores. *)
Definition snake_case (name : string) : bool :=
  match name with
  | EmptyString => false
  | String c rest =>
      PyStr.is_ascii_lower c && PyStr.forallb_str is_snake_tail rest
  end.

(** ** More vocabulary: the score combiner *)

(** The combined score as a number, -1 standing for an exception. *)
Definition combined_value (weight s e : Z) : Z :=
  match combined_score s e weight with
  | Ok v => v
  | Raise _ => -1
  end.

(** The dictionaries agree on the six categories. *)
Definition agree_on_categories (d d' : gmap string Z) : Prop :=
  ∀ category weight,
    categories !! category = Some weight → d !! category = d' !! category.

(** The highest combined value a category can reach when its static
    score is at most the maximum of the category and the external score
    at most 100; the same with a static score of 0. *)
Definition blend_cap (weight : Z) : Z := combined_value weight weight 100.
Definition external_cap (weight : Z) : Z := combined_value weight 0 100.

(** The static scores are within the maxima of their categories. *)
Definition static_in_range (static : gmap string Z) : Prop :=
  ∀ category weight,
    categories !! category = Some weight →
    ∃ s, static !! category = Some s ∧ 0 ≤ s ≤ weight.

(** ** More vocabulary: requests *)

(** An answer of the model whose naming score is 1 followed by 309
    zeros. *)
Definition huge_score_line : string :=
  "Naming: 1" ++ PyStr.repeat_char "0" 309.

(** * Properties *)

(** ** The walk visits every node exactly once *)

Lemma flat_map_opt_child (o : option ast) :
  flat_map nodes (opt_child o)
  = match o with Some c => nodes c | None => [] end.
Proof. destruct o; simpl; [apply app_nil_r | reflexivity]. Qed.

Lemma nodes_unfold (t : ast) :
  nodes t = t :: flat_map nodes (iter_child_nodes t).
Proof.
  destruct t; cbn [nodes iter_child_nodes flat_map];
    repeat rewrite flat_map_app; repeat rewrite flat_map_opt_child;
    cbn [flat_map]; rewrite ?app_nil_r; reflexivity.
Qed.

Lemma walk_queue_perm (fuel : nat) :
  ∀ todo : list ast,
    (length (flat_map nodes todo) ≤ fuel)%nat →
    walk_queue fuel todo ≡ₚ flat_map nodes todo.
Proof.
  induction fuel as [|fuel IH]; intros [|node todo] Hfuel; simpl in *.
  - reflexivity.
  - rewrite nodes_unfold in Hfuel. simpl in Hfuel. lia.
  - reflexivity.
  - rewrite nodes_unfold in Hfuel |- *. simpl in Hfuel |- *.
    apply Permutation_skip.
    rewrite IH.
    + rewrite flat_map_app. apply Permutation_app_comm.
    + rewrite flat_map_app, !length_app in *. lia.
Qed.

Lemma walk_perm (tree : ast) : walk tree ≡ₚ nodes tree.
Proof.
  unfold walk. rewrite walk_queue_perm; simpl; rewrite app_nil_r; [done | lia].
Qed.

(** ** Loops that only count *)

Lemma loop_app {A S : Type} (body : S → A → S) (l1 l2 : list A) (init : S) :
  loop body (l1 ++ l2) init = loop body l2 (loop body l1 init).
Proof. apply fold_left_app. Qed.

Lemma loop_le {A : Type} (body : Z → A → Z) (items : list A) :
  (∀ score x, body score x ≤ score) →
  ∀ init, loop body items init ≤ init.
Proof.
  intros Hstep. unfold loop.
  induction items as [|x items IH]; intros init; simpl.
  - lia.
  - etransitivity; [apply IH | apply Hstep].
Qed.

Lemma count_where_cons {A : Type} (p : A → bool) (x : A) (items : list A) :
  count_where p (x :: items)
  = (if p x then 1 else 0) + count_where p items.
Proof.
  unfold count_where. rewrite filter_cons.
  destruct (p x); case_decide; try congruence; simpl length; lia.
Qed.

Lemma count_where_nonneg {A : Type} (p : A → bool) (items : list A) :
  0 ≤ count_where p items.
Proof. unfold count_where. lia. Qed.

Lemma count_where_perm {A : Type} (p : A → bool) (l1 l2 : list A) :
  l1 ≡ₚ l2 → count_where p l1 = count_where p l2.
Proof. intros H. unfold count_where. by rewrite H. Qed.

Lemma count_where_app {A : Type} (p : A → bool) (l1 l2 : list A) :
  count_where p (l1 ++ l2) = count_where p l1 + count_where p l2.
Proof. unfold count_where. rewrite filter_app, length_app. lia. Qed.

Lemma loop_count {A : Type} (p : A → bool) (step : Z) (items : list A) :
  ∀ init,
    loop (fun score x => if p x then score - step else score) items init
    = init - step * count_where p items.
Proof.
  unfold loop.
  induction items as [|x items IH]; intros init.
  - unfold count_where. simpl. lia.
  - rewrite count_where_cons. simpl. rewrite IH.
    destruct (p x); lia.
Qed.

(** ** Strings *)

Module PyStrFacts.
Import PyStr.

Lemma forallb_str_app (p : ascii → bool) (a b : string) :
  forallb_str p (a ++ b) = forallb_str p a && forallb_str p b.
Proof.
  induction a as [|c a IH]; simpl; [reflexivity|].
  rewrite IH. by rewrite andb_assoc.
Qed.

Lemma forallb_str_rev (p : ascii → bool) (s : string) :
  forallb_str p (rev s) = forallb_str p s.
Proof.
  induction s as [|c s IH]; simpl; [reflexivity|].
  rewrite forallb_str_app, IH. simpl. rewrite andb_true_r. apply andb_comm.
Qed.

Lemma truthy_app (a b : string) : truthy (a ++ b) = truthy a || truthy b.
Proof. destruct a; simpl; [reflexivity | reflexivity]. Qed.

Lemma truthy_rev (s : string) : truthy (rev s) = truthy s.
Proof.
  destruct s as [|c s]; simpl; [reflexivity|].
  rewrite truthy_app. simpl. apply orb_true_r.
Qed.

Lemma truthy_lstrip (s : string) :
  truthy (lstrip s) = negb (forallb_str isspace s).
Proof.
  induction s as [|c s IH]; simpl; [reflexivity|].
  destruct (isspace c); simpl; [exact IH | reflexivity].
Qed.

Lemma forallb_lstrip (s : string) :
  forallb_str isspace (lstrip s) = forallb_str isspace s.
Proof.
  induction s as [|c s IH]; simpl; [reflexivity|].
  destruct (isspace c) eqn:E; simpl; [exact IH | by rewrite E].
Qed.

(** [line.strip()] is true exactly when the line has a character that
    is not white space. *)
Lemma truthy_strip (s : string) :
  truthy (strip s) = negb (forallb_str isspace s).
Proof.
  unfold strip, rstrip.
  by rewrite truthy_rev, truthy_lstrip, forallb_str_rev, forallb_lstrip.
Qed.

Lemma split_nonempty (sep : ascii) (s : string) : split sep s ≠ [].
Proof.
  destruct s as [|c s]; simpl; [discriminate|].
  destruct (Ascii.eqb c sep); [discriminate|].
  destruct (split sep s); discriminate.
Qed.

(** Splitting distributes over a separator. *)
Lemma split_app (sep : ascii) (a b : string) :
  split sep (a ++ String sep b) = (split sep a ++ split sep b)%list.
Proof.
  induction a as [|c a IH]; simpl.
  - by rewrite Ascii.eqb_refl.
  - destruct (Ascii.eqb c sep); rewrite IH; [reflexivity|].
    pose proof (split_nonempty sep a) as Hne.
    destruct (split sep a); [done | reflexivity].
Qed.

(** A string without the separator is a single piece. *)
Lemma split_single (sep : ascii) (s : string) :
  forallb_str (fun c => negb (Ascii.eqb c sep)) s = true →
  split sep s = [s].
Proof.
  induction s as [|c s IH]; simpl; [reflexivity|].
  intros [Hc Hs]%andb_true_iff.
  destruct (Ascii.eqb c sep); [discriminate|]. by rewrite IH.
Qed.

Lemma leading_spaces_cons (c : ascii) (rest : string) :
  leading_spaces (String c rest)
  = if Ascii.eqb c " " then 1 + leading_spaces rest else 0.
Proof.
  unfold leading_spaces, len. simpl.
  destruct (Ascii.eqb c " "); [|reflexivity].
  destruct (span _ rest) as [run rest']. simpl. lia.
Qed.

Lemma leading_spaces_nonneg (line : string) : 0 ≤ leading_spaces line.
Proof. unfold leading_spaces, len. lia. Qed.

Lemma startswith_spaces (n : nat) :
  ∀ line : string,
    startswith line (repeat_char " " n) = (Z.of_nat n <=? leading_spaces line).
Proof.
  unfold startswith.
  induction n as [|n IH]; intros line.
  - pose proof (leading_spaces_nonneg line).
    simpl. destruct line; symmetry; apply Z.leb_le; lia.
  - destruct line as [|c rest].
    + reflexivity.
    + rewrite leading_spaces_cons. cbn [repeat_char String.prefix].
      destruct (ascii_dec " " c) as [<-|Hne].
      * rewrite IH. simpl Ascii.eqb.
        destruct (Z.leb_spec (Z.of_nat n) (leading_spaces rest));
          symmetry; [apply Z.leb_le | apply Z.leb_gt]; lia.
      * rewrite (proj2 (Ascii.eqb_neq c " ")) by congruence.
        symmetry. apply Z.leb_gt. lia.
Qed.

End PyStrFacts.

Lemma count_where_ext {A : Type} (p q : A → bool) (items : list A) :
  (∀ x, p x = q x) → count_where p items = count_where q items.
Proof.
  intros Hpq. induction items as [|x items IH].
  - reflexivity.
  - rewrite !count_where_cons, IH, Hpq. reflexivity.
Qed.

Lemma count_where_none {A : Type} (p : A → bool) (items : list A) :
  Forall (fun x => p x = false) items → count_where p items = 0.
Proof.
  induction 1 as [|x items Hx _ IH]; [reflexivity|].
  rewrite count_where_cons, IH, Hx. reflexivity.
Qed.

(** ** The formatting rule *)

Module Formatting.
Import PyStr PyStrFacts.

Lemma formatting_penalised_spec (line : string) :
  formatting_penalised line = penalised_under_four line.
Proof.
  unfold formatting_penalised, penalised_under_four, is_blank.
  by rewrite truthy_strip, (startswith_spaces 4).
Qed.

Lemma check_formatting_count (code : string) :
  _check_formatting code
  = Z.max 0 (15 - 2 * count_where penalised_under_four (lines code)).
Proof.
  unfold _check_formatting. cbv zeta.
  rewrite (loop_count formatting_penalised 2).
  by rewrite (count_where_ext _ _ _ formatting_penalised_spec).
Qed.

Lemma lines_append (code line : string) :
  no_newline line = true →
  lines (code ++ nl ++ line) = (lines code ++ [line])%list.
Proof.
  intros Hline. unfold lines.
  change (nl ++ line) with (String newline line).
  rewrite split_app. f_equal. by apply split_single.
Qed.

(** C4, as stated, at a block indented by eight spaces: the second line
    begins with eight spaces, not exactly four, so the stated rule takes
    two points, while the program takes none. *)
Lemma exactly_four_counterexample :
  _check_formatting nested_block = 15
  ∧ score_exactly_four nested_block = 13
  ∧ _check_formatting nested_block ≠ score_exactly_four nested_block.
Proof. vm_compute. repeat split; congruence. Qed.

(** C4, amended: the score is 15 minus 2 for each line that is longer
    than 79 characters or is not blank and does not begin with four
    spaces (a longer run of spaces counts as beginning with four), and
    not below 0.  A body in which no line is penalised scores 15;
    appending one penalised line to any text raises the number of
    penalised lines by one, which takes the unpenalised body to 13. *)
Theorem check_formatting_rule (body line : string)
    (Hbody : Forall (fun l => penalised_under_four l = false) (lines body))
    (Hline : no_newline line = true)
    (Hbad : penalised_under_four line = true) :
  (∀ code,
     _check_formatting code
     = Z.max 0 (15 - 2 * count_where penalised_under_four (lines code)))
  ∧ (∀ code,
       _check_formatting (code ++ nl ++ line)
       = Z.max 0 (15 - 2 * (count_where penalised_under_four (lines code) + 1)))
  ∧ _check_formatting body = 15
  ∧ _check_formatting (body ++ nl ++ line) = 13.
Proof.
  assert (Hadd : ∀ code,
     _check_formatting (code ++ nl ++ line)
     = Z.max 0 (15 - 2 * (count_where penalised_under_four (lines code) + 1))).
  { intros code. rewrite check_formatting_count, lines_append by done.
    rewrite count_where_app, count_where_cons, Hbad.
    unfold count_where at 2. simpl. f_equal. }
  split; [exact check_formatting_count|]. split; [exact Hadd|].
  pose proof (count_where_none _ _ Hbody) as Hzero.
  split.
  - rewrite check_formatting_count, Hzero. reflexivity.
  - rewrite Hadd, Hzero. reflexivity.
Qed.

Lemma check_formatting_rule_witness :
  (∀ code,
     _check_formatting code
     = Z.max 0 (15 - 2 * count_where penalised_under_four (lines code)))
  ∧ (∀ code,
       _check_formatting (code ++ nl ++ "x = 1")
       = Z.max 0 (15 - 2 * (count_where penalised_under_four (lines code) + 1)))
  ∧ _check_formatting "    return x" = 15
  ∧ _check_formatting ("    return x" ++ nl ++ "x = 1") = 13.
Proof.
  apply (check_formatting_rule "    return x" "x = 1").
  - vm_compute. repeat constructor.
  - reflexivity.
  - reflexivity.
Defined.

End Formatting.

(** ** Running computations *)

Lemma bind_ok {A B : Type} (m : M A) (f : A → M B) (log log' : list event) (a : A) :
  m log = (Ok a, log') → (m ≫= f) log = f a log'.
Proof. intros H. unfold mbind, M_bind. by rewrite H. Qed.

Lemma bind_raise {A B : Type} (m : M A) (f : A → M B) (log log' : list event)
    (e : exception) :
  m log = (Raise e, log') → (m ≫= f) log = (Raise e, log').
Proof. intros H. unfold mbind, M_bind. by rewrite H. Qed.

Lemma categories_lookup (category : string) (weight : Z) :
  categories !! category = Some weight ↔ (category, weight) ∈ categories_items.
Proof.
  unfold categories. symmetry. apply elem_of_list_to_map.
  apply (bool_decide_unpack _). by vm_compute.
Qed.

Lemma categories_cases (category : string) (weight : Z) :
  categories !! category = Some weight →
  (category = "naming" ∧ weight = 10)
  ∨ (category = "modularity" ∧ weight = 20)
  ∨ (category = "comments" ∧ weight = 20)
  ∨ (category = "formatting" ∧ weight = 15)
  ∨ (category = "reusability" ∧ weight = 15)
  ∨ (category = "best_practices" ∧ weight = 20).
Proof.
  intros H%categories_lookup. unfold categories_items in H.
  repeat match type of H with
         | _ ∈ _ :: _ =>
             apply elem_of_cons in H; destruct H as [Heq|H];
             [inversion Heq; tauto|]
         end.
  by apply elem_of_nil in H.
Qed.

(** ** The static scorer *)

Section StaticScorer.

Variable ast_parse : string → result ast.

Lemma loop_tally {A : Type} (p : A → bool) (items : list A) :
  ∀ init,
    loop (fun total x => if p x then total + 1 else total) items init
    = init + count_where p items.
Proof.
  unfold loop.
  induction items as [|x items IH]; intros init.
  - unfold count_where. simpl. lia.
  - rewrite count_where_cons. simpl. rewrite IH. destruct (p x); lia.
Qed.

Lemma count_docstrings_nodes (tree : ast) :
  count_docstrings tree = docstring_statements tree.
Proof.
  unfold count_docstrings, docstring_statements.
  rewrite loop_tally, Z.add_0_l.
  apply count_where_perm, walk_perm.
Qed.

Lemma parse_ok (code : string) (tree : ast) (log : list event) :
  ast_parse code = Ok tree →
  parse ast_parse code log = (Ok tree, (log ++ [EvParse code])%list).
Proof. intros H. unfold parse. by rewrite H. Qed.

Lemma check_comments_run (code : string) (tree : ast) (log : list event) :
  ast_parse code = Ok tree →
  _check_comments ast_parse code log
  = (Ok (Z.min 20 (20 + 5 * docstring_statements tree)), (log ++ [EvParse code])%list).
Proof.
  intros H. unfold _check_comments.
  rewrite (bind_ok _ _ _ _ _ (parse_ok code tree log H)).
  rewrite count_docstrings_nodes. unfold mret, M_ret.
  do 3 f_equal. lia.
Qed.

(** *** Bounds of the six rules *)

Lemma naming_bounds (tree : ast) : 0 ≤ _check_naming_conventions tree ≤ 10.
Proof.
  unfold _check_naming_conventions. cbv zeta.
  split; [apply Z.le_max_l|]. apply Z.max_lub; [lia|].
  apply loop_le. intros score [] ; try lia; destruct (negb _); lia.
Qed.

Lemma modularity_bounds (tree : ast) : 0 ≤ _check_modularity tree ≤ 20.
Proof.
  unfold _check_modularity. cbv zeta.
  split; [apply Z.le_max_l|]. apply Z.max_lub; [lia|].
  apply loop_le. intros score []; try lia;
    destruct (20 <? _); destruct (5 <? _); lia.
Qed.

Lemma comments_bounds (tree : ast) :
  Z.min 20 (20 + 5 * docstring_statements tree) = 20.
Proof.
  pose proof (count_where_nonneg is_docstring (nodes tree)).
  unfold docstring_statements. lia.
Qed.

Lemma formatting_bounds (code : string) : 0 ≤ _check_formatting code ≤ 15.
Proof.
  rewrite Formatting.check_formatting_count.
  pose proof (count_where_nonneg penalised_under_four
                (PyStr.lines code)).
  lia.
Qed.

Lemma reusability_bounds (tree : ast) : 0 ≤ _check_reusability tree ≤ 15.
Proof.
  unfold _check_reusability. cbv zeta.
  split; [apply Z.le_max_l|]. apply Z.max_lub; [lia|].
  match goal with |- 15 - map_fold ?f 0 ?m ≤ 15 =>
    cut (0 ≤ map_fold f 0 m); [lia|];
    apply (map_fold_weak_ind (fun r _ => 0 ≤ r))
  end.
  - lia.
  - intros _ count _ total _ Htotal. destruct (3 <? count); lia.
Qed.

Lemma best_practices_bounds (tree : ast) : 0 ≤ _check_best_practices tree ≤ 20.
Proof.
  unfold _check_best_practices. cbv zeta.
  split; [apply Z.le_max_l|]. apply Z.max_lub; [lia|].
  apply loop_le. intros score []; try lia. destruct (negb _); lia.
Qed.

(** *** The two paths of [_analyze_python] *)

Lemma analyze_python_parsed (code : string) (tree : ast) (log : list event) :
  ast_parse code = Ok tree →
  _analyze_python ast_parse code log
  = (Ok (list_to_map
           [("naming", _check_naming_conventions tree);
            ("modularity", _check_modularity tree);
            ("comments", 20);
            ("formatting", _check_formatting code);
            ("reusability", _check_reusability tree);
            ("best_practices", _check_best_practices tree)]),
     (log ++ [EvParse code; EvParse code])%list).
Proof.
  intros H. unfold _analyze_python.
  rewrite (bind_ok _ _ log (log ++ [EvParse code]) (Some tree)); last first.
  { unfold try_except.
    by rewrite (bind_ok _ _ _ _ _ (parse_ok code tree log H)). }
  cbv zeta.
  rewrite (bind_ok _ _ _ _ _ (check_comments_run code tree _ H)).
  rewrite comments_bounds. unfold mret, M_ret.
  by rewrite <- app_assoc.
Qed.

Lemma analyze_python_syntax_error (code : string) (log : list event) :
  ast_parse code = Raise SyntaxError →
  _analyze_python ast_parse code log
  = (Ok ((fun _ => 0) <$> categories), (log ++ [EvParse code])%list).
Proof.
  intros H. unfold _analyze_python.
  rewrite (bind_ok _ _ log (log ++ [EvParse code]) None); [reflexivity|].
  unfold try_except.
  rewrite (bind_raise _ _ log (log ++ [EvParse code]) SyntaxError);
    [reflexivity|].
  unfold parse. by rewrite H.
Qed.

End StaticScorer.

(** An exception of the parser that is not a syntax error is not caught. *)
Lemma analyze_python_other_error (ast_parse : string → result ast)
    (code : string) (e : exception) (log : list event) :
  ast_parse code = Raise e → is_SyntaxError e = false →
  _analyze_python ast_parse code log = (Raise e, (log ++ [EvParse code])%list).
Proof.
  intros H He. unfold _analyze_python. apply bind_raise.
  unfold try_except.
  rewrite (bind_raise _ _ log (log ++ [EvParse code]) e).
  - by rewrite He.
  - unfold parse. by rewrite H.
Qed.

(** ** The static scorer: what it guarantees *)

(** C1: when the parser rejects the text with a syntax error, the static
    scorer for Python raises nothing and returns the dictionary that
    maps each of the six categories to 0, after the one parser call. *)
Theorem analyze_python_fails_closed (ast_parse : string → result ast)
    (code : string) (log : list event) :
  ast_parse code = Raise SyntaxError →
  _analyze_python ast_parse code log = (Ok all_zero, (log ++ [EvParse code])%list)
  ∧ ∀ category weight,
      categories !! category = Some weight → all_zero !! category = Some 0.
Proof.
  intros H. split.
  - by rewrite (analyze_python_syntax_error ast_parse code log H).
  - intros category weight Hc.
    destruct (categories_cases _ _ Hc)
      as [[-> _]|[[-> _]|[[-> _]|[[-> _]|[[-> _]|[-> _]]]]]]; reflexivity.
Qed.

Lemma analyze_python_fails_closed_witness :
  _analyze_python (fun _ => Raise SyntaxError) "def f(:" []
  = (Ok all_zero, [EvParse "def f(:"])
  ∧ ∀ category weight,
      categories !! category = Some weight → all_zero !! category = Some 0.
Proof.
  apply (analyze_python_fails_closed (fun _ => Raise SyntaxError) "def f(:" []).
  reflexivity.
Defined.

(** C5: on text that parses, the comments score is
    [min(20, 20 + 5 * count)], where [count] is the number of expression
    statements in the tree that are a bare string literal; with one or
    more of them the score is 20. *)
Theorem check_comments_saturates (ast_parse : string → result ast)
    (code : string) (tree : ast) (log : list event) :
  ast_parse code = Ok tree →
  _check_comments ast_parse code log
  = (Ok (Z.min 20 (20 + 5 * docstring_statements tree)),
     (log ++ [EvParse code])%list)
  ∧ (1 ≤ docstring_statements tree →
     _check_comments ast_parse code log = (Ok 20, (log ++ [EvParse code])%list)).
Proof.
  intros H. rewrite (check_comments_run ast_parse code tree log H).
  split; [reflexivity|]. intros Hcount. do 2 f_equal. lia.
Qed.

Lemma check_comments_saturates_witness :
  _check_comments (fun _ => Ok docstring_module) "'doc'; 'more'" []
  = (Ok (Z.min 20 (20 + 5 * docstring_statements docstring_module)),
     [EvParse "'doc'; 'more'"])
  ∧ (1 ≤ docstring_statements docstring_module →
     _check_comments (fun _ => Ok docstring_module) "'doc'; 'more'" []
     = (Ok 20, [EvParse "'doc'; 'more'"])).
Proof.
  apply (check_comments_saturates (fun _ => Ok docstring_module)
           "'doc'; 'more'" docstring_module []).
  reflexivity.
Defined.

(** C8: on text that parses, the static scorer returns a score for each
    of the six categories, and each score lies between 0 and the maximum
    of its category. *)
Theorem static_scores_within_bounds (ast_parse : string → result ast)
    (code : string) (tree : ast) (log : list event) :
  ast_parse code = Ok tree →
  ∃ scores : gmap string Z,
    _analyze_python ast_parse code log
    = (Ok scores, (log ++ [EvParse code; EvParse code])%list)
    ∧ dom scores = dom categories
    ∧ ∀ category weight,
        categories !! category = Some weight →
        ∃ score, scores !! category = Some score ∧ 0 ≤ score ≤ weight.
Proof.
  intros H. eexists. split; [by apply analyze_python_parsed|].
  pose proof (naming_bounds tree). pose proof (modularity_bounds tree).
  pose proof (formatting_bounds code). pose proof (reusability_bounds tree).
  pose proof (best_practices_bounds tree).
  generalize dependent (_check_naming_conventions tree).
  generalize dependent (_check_modularity tree).
  generalize dependent (_check_formatting code).
  generalize dependent (_check_reusability tree).
  generalize dependent (_check_best_practices tree).
  intros b Hb r Hr f Hf m Hm n Hn. split.
  - unfold categories, categories_items. simpl list_to_map.
    rewrite !dom_insert_L. reflexivity.
  - intros category weight Hc.
    destruct (categories_cases _ _ Hc)
      as [[-> ->]|[[-> ->]|[[-> ->]|[[-> ->]|[[-> ->]|[-> ->]]]]]];
      [exists n | exists m | exists 20 | exists f | exists r | exists b];
      (split; [reflexivity | lia]).
Qed.

Lemma static_scores_within_bounds_witness :
  ∃ scores : gmap string Z,
    _analyze_python (fun _ => Ok docstring_module) "'doc'; 'more'" []
    = (Ok scores, [EvParse "'doc'; 'more'"; EvParse "'doc'; 'more'"])
    ∧ dom scores = dom categories
    ∧ ∀ category weight,
        categories !! category = Some weight →
        ∃ score, scores !! category = Some score ∧ 0 ≤ score ≤ weight.
Proof.
  apply (static_scores_within_bounds (fun _ => Ok docstring_module)
           "'doc'; 'more'" docstring_module []).
  reflexivity.
Defined.

(** C10: on text that parses the comments score is 20 whatever the tree
    holds, also when it holds no bare string literal statement: the rule
    returns 20 and the static scorer files 20 under "comments". *)
Theorem comments_score_is_always_20 (ast_parse : string → result ast)
    (code : string) (tree : ast) (log : list event) :
  ast_parse code = Ok tree →
  _check_comments ast_parse code log = (Ok 20, (log ++ [EvParse code])%list)
  ∧ ∃ scores : gmap string Z,
      _analyze_python ast_parse code log
      = (Ok scores, (log ++ [EvParse code; EvParse code])%list)
      ∧ scores !! "comments" = Some 20.
Proof.
  intros H. split.
  - rewrite (check_comments_run ast_parse code tree log H).
    by rewrite comments_bounds.
  - eexists. split; [by apply analyze_python_parsed|]. reflexivity.
Qed.

Lemma comments_score_is_always_20_witness :
  _check_comments (fun _ => Ok (Module [] [])) "" [] = (Ok 20, [EvParse ""])
  ∧ ∃ scores : gmap string Z,
      _analyze_python (fun _ => Ok (Module [] [])) "" []
      = (Ok scores, [EvParse ""; EvParse ""])
      ∧ scores !! "comments" = Some 20.
Proof.
  apply (comments_score_is_always_20 (fun _ => Ok (Module [] [])) ""
           (Module [] []) []).
  reflexivity.
Defined.

(** ** The extractor *)

Module Extractor.
Import PyStr PyStrFacts.

Lemma span_spec (p : ascii → bool) (s : string) :
  ∀ run rest,
    span p s = (run, rest) →
    s = run ++ rest ∧ forallb_str p run = true ∧ stops p rest = true.
Proof.
  induction s as [|c s IH]; simpl; intros run rest Hspan.
  - by injection Hspan as <- <-.
  - destruct (p c) eqn:Hc.
    + destruct (span p s) as [run' rest'].
      injection Hspan as <- <-.
      destruct (IH run' rest' eq_refl) as (-> & Hrun & Hstop).
      simpl. by rewrite Hc, Hrun.
    + injection Hspan as <- <-. simpl. by rewrite Hc.
Qed.

Lemma span_app (p : ascii → bool) (run rest : string) :
  forallb_str p run = true → stops p rest = true →
  span p (run ++ rest) = (run, rest).
Proof.
  intros Hrun Hstop. induction run as [|c run IH]; simpl in *.
  - destruct rest as [|c rest]; [reflexivity|].
    simpl in *. apply negb_true_iff in Hstop. by rewrite Hstop.
  - apply andb_true_iff in Hrun as [-> Hrun]. by rewrite IH.
Qed.

Lemma colon_not_word : is_word ":" = false.
Proof. reflexivity. Qed.

Lemma decimal_not_space (c : ascii) : isdecimal c = true → isspace c = false.
Proof.
  destruct c as [[] [] [] [] [] [] [] []]; vm_compute; congruence.
Qed.

Lemma stops_app (p q : ascii → bool) (run rest : string) :
  (∀ c, q c = true → p c = false) →
  truthy run = true → forallb_str q run = true →
  stops p (run ++ rest) = true.
Proof.
  intros Hpq Hne Hrun. destruct run as [|c run]; [discriminate|].
  simpl in *. apply andb_true_iff in Hrun as [Hc _]. by rewrite (Hpq c Hc).
Qed.

(** The matcher finds exactly the lines of the pattern, with the groups
    of the pattern. *)
Lemma match_score_line_spec (line word digits : string) :
  match_score_line line = Some (word, digits) ↔ score_line line word digits.
Proof.
  unfold match_score_line, score_line. split.
  - destruct (span is_word line) as [w rest] eqn:Hw.
    apply span_spec in Hw as (-> & Hword & _).
    destruct w as [|c w]; [discriminate|].
    destruct rest as [|colon rest]; [discriminate|].
    destruct (Ascii.eqb_spec colon ":") as [->|Hne]; last first.
    { destruct colon as [[] [] [] [] [] [] [] []]; try discriminate.
      by destruct Hne. }
    destruct (span isspace rest) as [spaces rest'] eqn:Hs.
    apply span_spec in Hs as (-> & Hspaces & _).
    destruct (span isdecimal rest') as [ds rest''] eqn:Hd.
    apply span_spec in Hd as (-> & Hdigits & Hstop).
    destruct ds as [|d ds]; [discriminate|].
    intros [= <- <-]. by exists spaces, rest''.
  - intros (spaces & rest & -> & Hne & Hword & Hspaces & Hdne & Hdigits & Hstop).
    rewrite (span_app is_word word) by done.
    destruct word as [|c word]; [discriminate|].
    change (":" ++ spaces ++ digits ++ rest)
      with (String ":" (spaces ++ digits ++ rest)).
    cbv beta iota.
    rewrite (span_app isspace spaces); [|done|].
    + rewrite (span_app isdecimal digits) by done.
      by destruct digits.
    + by apply (stops_app _ isdecimal); [apply decimal_not_space| |].
Qed.

Lemma last_snoc_omap {A B : Type} (g : A → option B) (l : list A) (x : A) :
  last (omap g (l ++ [x])%list)
  = match g x with Some v => Some v | None => last (omap g l) end.
Proof.
  rewrite omap_app. simpl. destruct (g x); simpl.
  - apply last_snoc.
  - by rewrite app_nil_r.
Qed.

Lemma record_lookup (feedback_lines : list string) (key : string) :
  loop record_line feedback_lines ∅ !! key = last_recorded key feedback_lines.
Proof.
  unfold last_recorded.
  induction feedback_lines as [|line ls IH] using rev_ind; [reflexivity|].
  rewrite loop_app, last_snoc_omap. unfold value_for, record_line. simpl.
  destruct (recorded line) as [[k v]|]; [|exact IH].
  case_decide as Hkey.
  - subst key. apply lookup_insert_eq.
  - by rewrite lookup_insert_ne.
Qed.

Lemma extract_scores_loop (feedback : string) :
  _extract_scores feedback = loop_result score_step (lines feedback) ∅.
Proof. reflexivity. Qed.

Lemma convertible_forallb (feedback_lines : list string) :
  forallb (fun line => negb (too_long line)) feedback_lines = true →
  convertible feedback_lines.
Proof.
  unfold convertible. induction feedback_lines as [|line rest IH]; simpl.
  - constructor.
  - intros [Hline Hrest]%andb_prop. constructor; [|by apply IH].
    by destruct (too_long line).
Qed.

Lemma score_step_ok (scores : gmap string Z) (line : string) :
  too_long line = false → score_step scores line = Ok (record_line scores line).
Proof.
  unfold score_step, too_long, record_line, recorded, Builtins.int.
  destruct (match_score_line line) as [[word digits]|]; [|done].
  by intros ->.
Qed.

Lemma score_step_raise (scores : gmap string Z) (line : string) :
  too_long line = true →
  ∃ word digits,
    match_score_line line = Some (word, digits)
    ∧ score_step scores line
      = Raise (ValueError (Builtins.exceeds_the_limit (String.length digits))).
Proof.
  unfold score_step, too_long, Builtins.int.
  destruct (match_score_line line) as [[word digits]|]; [|done].
  intros Hlong. exists word, digits. by rewrite Hlong.
Qed.

(** Lines that convert are recorded one after the other. *)
Lemma score_loop_app (before rest : list string) :
  convertible before →
  ∀ scores,
    loop_result score_step (before ++ rest)%list scores
    = loop_result score_step rest (loop record_line before scores).
Proof.
  induction 1 as [|line before Hline _ IH]; intros scores; [reflexivity|].
  cbn [app loop_result]. rewrite (score_step_ok scores line Hline).
  cbn [mbind result_bind]. by rewrite IH.
Qed.

Lemma extract_scores_ok (feedback : string) :
  convertible (lines feedback) →
  _extract_scores feedback = Ok (loop record_line (lines feedback) ∅).
Proof.
  intros Hlines. rewrite extract_scores_loop.
  rewrite <- (app_nil_r (lines feedback)) at 1.
  by rewrite (score_loop_app _ [] Hlines).
Qed.

Lemma extract_scores_raise (feedback line : string) (before after : list string) :
  lines feedback = (before ++ line :: after)%list →
  convertible before → too_long line = true →
  ∃ word digits,
    match_score_line line = Some (word, digits)
    ∧ _extract_scores feedback
      = Raise (ValueError (Builtins.exceeds_the_limit (String.length digits))).
Proof.
  intros Hlines Hbefore Hlong.
  destruct (score_step_raise (loop record_line before ∅) line Hlong)
    as (word & digits & Hmatch & Hraise).
  exists word, digits. split; [done|].
  rewrite extract_scores_loop, Hlines, (score_loop_app _ _ Hbefore).
  cbn [loop_result]. by rewrite Hraise.
Qed.

Lemma startswith_spec (line p : string) :
  startswith line p = true ↔ ∃ rest, line = p ++ rest.
Proof.
  unfold startswith. revert line.
  induction p as [|c p IH]; intros line; simpl.
  - split; [by exists line | by destruct line].
  - destruct line as [|c' line]; simpl; [split; [done | by intros [? ?]]|].
    destruct (ascii_dec c c') as [<-|Hne].
    + rewrite IH. split; intros [rest Hrest]; exists rest.
      * by rewrite Hrest.
      * change (String c p ++ rest) with (String c (p ++ rest)) in Hrest.
        congruence.
    + split; [done | intros [rest Hrest]].
      change (String c p ++ rest) with (String c (p ++ rest)) in Hrest.
      congruence.
Qed.

Lemma slice_from_app (p rest : string) :
  slice_from (String.length p) (p ++ rest) = rest.
Proof. induction p as [|c p IH]; simpl; [by destruct rest | exact IH]. Qed.

Lemma slice_after_dash (rest : string) : slice_from 2 ("- " ++ rest) = rest.
Proof. exact (slice_from_app "- " rest). Qed.

Lemma extract_recommendations_spec (feedback text : string) :
  text ∈ _extract_recommendations feedback
  ↔ ("- " ++ text) ∈ lines feedback.
Proof.
  unfold _extract_recommendations. rewrite list_elem_of_omap. split.
  - intros (line & Hline & Hsome).
    destruct (startswith line "- ") eqn:Hdash; [|discriminate].
    apply startswith_spec in Hdash as [rest ->].
    injection Hsome as <-. exact Hline.
  - intros Hline. exists ("- " ++ text). split; [done|].
    rewrite (proj2 (startswith_spec _ "- ")) by eauto.
    by rewrite slice_after_dash.
Qed.

Lemma last_recorded_app (key : string) (before after : list string) (line : string)
    (value : Z) :
  recorded line = Some (key, value) →
  Forall (fun l => ∀ v, recorded l ≠ Some (key, v)) after →
  last_recorded key (before ++ line :: after)%list = Some value.
Proof.
  intros Hline Hafter. unfold last_recorded.
  assert (Hnone : omap (value_for key) after = []).
  { induction Hafter as [|l after Hl _ IH]; [reflexivity|].
    simpl. unfold value_for at 1.
    destruct (recorded l) as [[k v]|]; [|exact IH].
    case_decide; [subst; by destruct (Hl v) | exact IH]. }
  assert (Hvalue : value_for key line = Some value).
  { unfold value_for. by rewrite Hline, decide_True. }
  rewrite omap_app. cbn [omap list_omap]. rewrite Hnone, Hvalue.
  apply last_snoc.
Qed.

(** C7, as stated, at a line of the pattern with 4301 digits: the
    line has the form word, colon, white space, digits, yet the
    extractor records nothing for it; it raises [ValueError], the
    conversion of more than 4300 digits being refused. *)
Lemma long_digits_counterexample :
  match_score_line long_score_line = Some ("a", repeat_char "1" 4301)
  ∧ _extract_scores long_score_line
    = Raise (ValueError (Builtins.exceeds_the_limit 4301))
  ∧ ¬ ∃ scores, _extract_scores long_score_line = Ok scores.
Proof.
  assert (H : _extract_scores long_score_line
              = Raise (ValueError (Builtins.exceeds_the_limit 4301)))
    by (vm_compute; reflexivity).
  split; [vm_compute; reflexivity|]. split; [exact H|].
  intros [scores Hscores]. congruence.
Qed.

(** C7, amended: a line has the form of the pattern exactly when the
    matcher finds it.  When no such line has more than 4300 digits, the
    extractor records, for each key, the integer of the last line that
    has the form word, colon, optional white space, digits at its start
    and whose lower-cased word is the key; the first line of that form
    with more than 4300 digits makes it raise [ValueError] instead.  It
    collects the text after the dash and space of every line that
    begins with them.  On the two-line sample the scores are naming to
    85 and the recommendations are the one text; in any feedback that
    holds the two lines and no line with too many digits, the text is
    among the recommendations, and naming is 85 unless a later line
    records naming again. *)
Theorem extractor_rules :
  (∀ line word digits,
     match_score_line line = Some (word, digits) ↔ score_line line word digits)
  ∧ (∀ feedback,
       convertible (lines feedback) →
       ∃ scores,
         _extract_scores feedback = Ok scores
         ∧ ∀ key, scores !! key = last_recorded key (lines feedback))
  ∧ (∀ feedback line before after,
       lines feedback = (before ++ line :: after)%list →
       convertible before → too_long line = true →
       ∃ word digits,
         match_score_line line = Some (word, digits)
         ∧ _extract_scores feedback
           = Raise (ValueError
                      (Builtins.exceeds_the_limit (String.length digits))))
  ∧ (∀ feedback text,
       text ∈ _extract_recommendations feedback
       ↔ ("- " ++ text) ∈ lines feedback)
  ∧ _extract_scores sample_feedback = Ok {[ "naming" := 85 ]}
  ∧ _extract_recommendations sample_feedback
    = ["Use more descriptive variable names"]
  ∧ (∀ feedback before after,
       lines feedback = (before ++ "Naming: 85" :: after)%list →
       "- Use more descriptive variable names" ∈ lines feedback →
       convertible (lines feedback) →
       Forall (fun l => ∀ v, recorded l ≠ Some ("naming", v)) after →
       (∃ scores,
          _extract_scores feedback = Ok scores
          ∧ scores !! "naming" = Some 85)
       ∧ "Use more descriptive variable names"
         ∈ _extract_recommendations feedback).
Proof.
  split; [exact match_score_line_spec|].
  split.
  { intros feedback Hlines. eexists. split; [by apply extract_scores_ok|].
    intros key. apply record_lookup. }
  split; [exact extract_scores_raise|].
  split; [exact extract_recommendations_spec|].
  split; [by vm_compute|]. split; [by vm_compute|].
  intros feedback before after Hlines Hdash Hconv Hafter. split.
  - eexists. split; [by apply extract_scores_ok|].
    rewrite record_lookup, Hlines.
    by apply last_recorded_app.
  - by apply extract_recommendations_spec.
Qed.

Lemma extractor_rules_witness :
  (∃ scores,
     _extract_scores noisy_feedback = Ok scores
     ∧ scores !! "naming" = Some 85)
  ∧ "Use more descriptive variable names"
    ∈ _extract_recommendations noisy_feedback.
Proof.
  apply (proj2 (proj2 (proj2 (proj2 (proj2 (proj2 extractor_rules)))))
           noisy_feedback ["Formatting: 70"]
           ["- Use more descriptive variable names"]).
  - reflexivity.
  - apply list_elem_of_In. vm_compute. tauto.
  - apply convertible_forallb. vm_compute. reflexivity.
  - constructor; [|constructor]. intros v. vm_compute. discriminate.
Defined.

End Extractor.

(** ** The recommendation combiner *)

Section Recommendations.

Variable iter_set : gset string → list string.
Hypothesis iter_set_perm : ∀ X, iter_set X ≡ₚ elements X.

Lemma static_recommendations_cases (naming modularity : Z) :
  static_recommendations_of naming modularity
  = ((if naming <? 8 then [snake_case_advice] else [])
     ++ (if modularity <? 15 then [long_function_advice] else []))%list.
Proof.
  unfold static_recommendations_of.
  destruct (naming <? 8), (modularity <? 15); reflexivity.
Qed.

Lemma iter_set_NoDup (X : gset string) : NoDup (iter_set X).
Proof. rewrite iter_set_perm. apply NoDup_elements. Qed.

Lemma iter_set_elem (X : gset string) (x : string) : x ∈ iter_set X ↔ x ∈ X.
Proof. rewrite iter_set_perm. apply elem_of_elements. Qed.

Lemma iter_set_length (X : gset string) : length (iter_set X) = size X.
Proof. by rewrite iter_set_perm. Qed.

End Recommendations.

(** C6: the snake-case advice is added exactly when the static naming
    score is below 8 and the long-function advice exactly when the static
    modularity score is below 15, and nothing else is added; the
    combiner returns at most five strings, no string twice, each of them
    an added advice or an extracted recommendation; it drops strings
    only when there are more than five different ones, and cutting the
    result to five again changes nothing.  This holds for every order in
    which the set of strings can be iterated. *)
Theorem combine_recommendations_rules (iter_set : gset string → list string)
    (static_metrics : gmap string Z) (ai_recommendations : list string)
    (naming modularity : Z) :
  (∀ X, iter_set X ≡ₚ elements X) →
  static_metrics !! "naming" = Some naming →
  static_metrics !! "modularity" = Some modularity →
  let added := static_recommendations_of naming modularity in
  (snake_case_advice ∈ added ↔ naming < 8)
  ∧ (long_function_advice ∈ added ↔ modularity < 15)
  ∧ (∀ r, r ∈ added → r = snake_case_advice ∨ r = long_function_advice)
  ∧ ∃ recs : list string,
      _combine_recommendations iter_set static_metrics ai_recommendations
      = Ok recs
      ∧ (length recs ≤ 5)%nat
      ∧ NoDup recs
      ∧ (∀ r, r ∈ recs → r ∈ added ∨ r ∈ ai_recommendations)
      ∧ length recs
        = Nat.min 5 (size (list_to_set (added ++ ai_recommendations)%list
                           : gset string))
      ∧ take 5 recs = recs.
Proof.
  intros Hiter Hnaming Hmodularity added.
  assert (Hadded : added
    = ((if naming <? 8 then [snake_case_advice] else [])
       ++ (if modularity <? 15 then [long_function_advice] else []))%list)
    by apply static_recommendations_cases.
  assert (Hdiff : snake_case_advice ≠ long_function_advice) by discriminate.
  split; [|split; [|split]].
  - rewrite Hadded.
    destruct (Z.ltb_spec naming 8), (modularity <? 15);
      rewrite elem_of_app, ?elem_of_cons, ?elem_of_nil;
      intuition (congruence || lia).
  - rewrite Hadded.
    destruct (naming <? 8), (Z.ltb_spec modularity 15);
      rewrite elem_of_app, ?elem_of_cons, ?elem_of_nil;
      intuition (congruence || lia).
  - rewrite Hadded. intros r.
    destruct (naming <? 8), (modularity <? 15);
      rewrite elem_of_app, ?elem_of_cons, ?elem_of_nil; tauto.
  - unfold _combine_recommendations, getitem.
    rewrite Hnaming, Hmodularity. simpl. fold added.
    eexists. split; [reflexivity|].
    split; [rewrite length_take; lia|].
    split; [eapply sublist_NoDup;
            [by apply iter_set_NoDup | apply sublist_take]|].
    split.
    { intros r Hr%subseteq_take. apply iter_set_elem in Hr; [|done].
      by apply elem_of_list_to_set, elem_of_app in Hr. }
    split; [by rewrite length_take, iter_set_length|].
    apply take_idemp.
Qed.

Lemma combine_recommendations_rules_witness :
  let added := static_recommendations_of 6 20 in
  (snake_case_advice ∈ added ↔ 6 < 8)
  ∧ (long_function_advice ∈ added ↔ 20 < 15)
  ∧ (∀ r, r ∈ added → r = snake_case_advice ∨ r = long_function_advice)
  ∧ ∃ recs : list string,
      _combine_recommendations elements
        (list_to_map [("naming", 6); ("modularity", 20)])
        ["Add docstrings"; "Add docstrings"]
      = Ok recs
      ∧ (length recs ≤ 5)%nat
      ∧ NoDup recs
      ∧ (∀ r, r ∈ recs → r ∈ added ∨ r ∈ ["Add docstrings"; "Add docstrings"])
      ∧ length recs
        = Nat.min 5 (size (list_to_set
                             (added ++ ["Add docstrings"; "Add docstrings"])%list
                           : gset string))
      ∧ take 5 recs = recs.
Proof.
  apply (combine_recommendations_rules elements
           (list_to_map [("naming", 6); ("modularity", 20)])
           ["Add docstrings"; "Add docstrings"] 6 20).
  - intros X. reflexivity.
  - reflexivity.
  - reflexivity.
Defined.

(** ** The score combiner *)

Module Combiner.

(** The literals are the correctly rounded quotients. *)
Example lit_0_7_nearest : PyFloat.int_truediv 7 10 = Ok PyFloat.lit_0_7.
Proof. reflexivity. Qed.

Example lit_0_3_nearest : PyFloat.int_truediv 3 10 = Ok PyFloat.lit_0_3.
Proof. reflexivity. Qed.

(** The value is the one of the floating-point expression: here the
    exact product is 7.5, the floating-point product is just below it,
    and the rounded value is 7. *)
Example combined_score_near_tie : combined_score 96 26 10 = Ok 7.
Proof. vm_compute. reflexivity. Qed.

Lemma zrange_elem (n : nat) (z : Z) : 0 ≤ z < Z.of_nat n → In z (zrange n).
Proof.
  intros Hz. unfold zrange. apply in_map_iff. exists (Z.to_nat z).
  split; [lia|]. apply in_seq. lia.
Qed.

Lemma bounded_for_10 : bounded_for 10 = true.
Proof. vm_compute. reflexivity. Qed.

Lemma bounded_for_15 : bounded_for 15 = true.
Proof. vm_compute. reflexivity. Qed.

Lemma bounded_for_20 : bounded_for 20 = true.
Proof. vm_compute. reflexivity. Qed.

Lemma combined_score_nearest (category : string) (weight s e : Z) :
  categories !! category = Some weight →
  0 ≤ s ≤ 100 → 0 ≤ e ≤ 100 →
  ∃ v, combined_score s e weight = Ok v ∧ 0 ≤ v ≤ weight
       ∧ nearest_to_exact weight s e v.
Proof.
  intros Hc Hs He.
  assert (Hb : bounded_for weight = true).
  { destruct (categories_cases _ _ Hc)
      as [[_ ->]|[[_ ->]|[[_ ->]|[[_ ->]|[[_ ->]|[_ ->]]]]]];
      [ exact bounded_for_10 | exact bounded_for_20 | exact bounded_for_20
      | exact bounded_for_15 | exact bounded_for_15 | exact bounded_for_20 ]. }
  unfold bounded_for in Hb.
  rewrite forallb_forall in Hb. specialize (Hb s (zrange_elem 101 s ltac:(lia))).
  rewrite forallb_forall in Hb. specialize (Hb e (zrange_elem 101 e ltac:(lia))).
  destruct (combined_score s e weight) as [v|]; [|discriminate].
  exists v. split; [reflexivity|]. unfold nearest_to_exact.
  cbn [within] in Hb.
  apply andb_true_iff in Hb as [[H0%Z.leb_le Hw%Z.leb_le]%andb_true_iff
                                  Hn%Z.leb_le].
  split; [lia | exact Hn].
Qed.

Lemma combined_score_bounds (category : string) (weight s e : Z) :
  categories !! category = Some weight →
  0 ≤ s ≤ 100 → 0 ≤ e ≤ 100 →
  ∃ v, combined_score s e weight = Ok v ∧ 0 ≤ v ≤ weight.
Proof.
  intros Hc Hs He.
  destruct (combined_score_nearest category weight s e Hc Hs He)
    as (v & Hv & Hb & _).
  by exists v.
Qed.

Lemma get_in_range (d : gmap string Z) (category : string) :
  scores_in_range d → 0 ≤ get d category 0 ≤ 100.
Proof.
  intros Hd. unfold get. destruct (d !! category) as [v|] eqn:Hv; simpl.
  - by apply (Hd category).
  - lia.
Qed.

Lemma categories_dom :
  dom categories
  = ({[ "naming"; "modularity"; "comments"; "formatting"; "reusability";
        "best_practices" ]} : gset string).
Proof.
  unfold categories, categories_items. simpl list_to_map.
  rewrite !dom_insert_L, dom_empty_L. set_solver.
Qed.

(** Whatever the combiner returns holds, for each category, the value of
    the formula at the two scores of that category. *)
Lemma combine_metrics_returns (static_metrics ai_metrics combined : gmap string Z) :
  _combine_metrics static_metrics ai_metrics = Ok combined →
  ∀ category weight,
    categories !! category = Some weight →
    ∃ v, combined_score (get static_metrics category 0)
                        (get ai_metrics category 0) weight = Ok v
         ∧ combined !! category = Some v.
Proof.
  unfold _combine_metrics, categories_items. cbn [dict_comprehension].
  destruct (combined_score _ _ 10) as [v1|] eqn:E1; [|discriminate].
  cbn [mbind result_bind].
  destruct (combined_score (get static_metrics "modularity" 0) _ 20)
    as [v2|] eqn:E2; [|discriminate].
  cbn [mbind result_bind].
  destruct (combined_score (get static_metrics "comments" 0) _ 20)
    as [v3|] eqn:E3; [|discriminate].
  cbn [mbind result_bind].
  destruct (combined_score (get static_metrics "formatting" 0) _ 15)
    as [v4|] eqn:E4; [|discriminate].
  cbn [mbind result_bind].
  destruct (combined_score (get static_metrics "reusability" 0) _ 15)
    as [v5|] eqn:E5; [|discriminate].
  cbn [mbind result_bind].
  destruct (combined_score (get static_metrics "best_practices" 0) _ 20)
    as [v6|] eqn:E6; [|discriminate].
  cbn [mbind result_bind].
  intros [= <-] category weight Hc.
  destruct (categories_cases _ _ Hc)
    as [[-> ->]|[[-> ->]|[[-> ->]|[[-> ->]|[[-> ->]|[-> ->]]]]]];
    [exists v1 | exists v2 | exists v3 | exists v4 | exists v5 | exists v6];
    (split; [assumption | reflexivity]).
Qed.

(** C2: the combiner stores, for each category, the rounded value of
    (static * 0.7 + external * 0.3) * (maximum / 100), a missing score
    counting as 0.  For any two scores from 0 to 100 that value is
    computed without an exception, lies between 0 and the maximum of
    the category and is an integer nearest to the exact value of the
    expression, (7 * static + 3 * external) * maximum / 1000: at most
    one half away from it.  With all static and external scores from 0
    to 100 the combiner raises nothing and returns the six values. *)
Theorem combine_metrics_rules (static_metrics ai_metrics : gmap string Z) :
  scores_in_range static_metrics →
  scores_in_range ai_metrics →
  (∀ category weight s e,
     categories !! category = Some weight →
     0 ≤ s ≤ 100 → 0 ≤ e ≤ 100 →
     ∃ v, combined_score s e weight = Ok v ∧ 0 ≤ v ≤ weight
          ∧ nearest_to_exact weight s e v)
  ∧ (∀ (static ai combined : gmap string Z) category weight,
       _combine_metrics static ai = Ok combined →
       categories !! category = Some weight →
       ∃ v, combined_score (get static category 0) (get ai category 0) weight
            = Ok v
            ∧ combined !! category = Some v
            ∧ (ai !! category = None → get ai category 0 = 0)
            ∧ (0 ≤ get static category 0 ≤ 100 →
               0 ≤ get ai category 0 ≤ 100 →
               0 ≤ v ≤ weight
               ∧ nearest_to_exact weight (get static category 0)
                   (get ai category 0) v))
  ∧ ∃ combined : gmap string Z,
      _combine_metrics static_metrics ai_metrics = Ok combined
      ∧ dom combined = dom categories
      ∧ ∀ category weight,
          categories !! category = Some weight →
          ∃ v, combined_score (get static_metrics category 0)
                              (get ai_metrics category 0) weight = Ok v
               ∧ combined !! category = Some v
               ∧ 0 ≤ v ≤ weight
               ∧ nearest_to_exact weight (get static_metrics category 0)
                   (get ai_metrics category 0) v.
Proof.
  intros Hstatic Hai.
  split; [exact combined_score_nearest|].
  split.
  { intros static ai combined category weight Hrun Hc.
    destruct (combine_metrics_returns _ _ _ Hrun _ _ Hc) as (v & Hv & Hlook).
    exists v. split; [assumption|]. split; [assumption|]. split.
    - intros Hnone. unfold get. by rewrite Hnone.
    - intros Hs He.
      destruct (combined_score_nearest _ _ _ _ Hc Hs He)
        as (v' & Hv' & Hb & Hnear).
      assert (v' = v) by congruence. by subst v'. }
  assert (Hv : ∀ category weight,
             categories !! category = Some weight →
             ∃ v, combined_score (get static_metrics category 0)
                                 (get ai_metrics category 0) weight = Ok v
                  ∧ 0 ≤ v ≤ weight
                  ∧ nearest_to_exact weight (get static_metrics category 0)
                      (get ai_metrics category 0) v).
  { intros category weight Hc.
    by apply (combined_score_nearest category); [|apply get_in_range..]. }
  destruct (Hv "naming" 10 eq_refl) as (v1 & E1 & B1 & _).
  destruct (Hv "modularity" 20 eq_refl) as (v2 & E2 & B2 & _).
  destruct (Hv "comments" 20 eq_refl) as (v3 & E3 & B3 & _).
  destruct (Hv "formatting" 15 eq_refl) as (v4 & E4 & B4 & _).
  destruct (Hv "reusability" 15 eq_refl) as (v5 & E5 & B5 & _).
  destruct (Hv "best_practices" 20 eq_refl) as (v6 & E6 & B6 & _).
  assert (Hrun : _combine_metrics static_metrics ai_metrics
                 = Ok (six v1 v2 v3 v4 v5 v6)).
  { unfold _combine_metrics, categories_items. cbn [dict_comprehension].
    rewrite E1, E2, E3, E4, E5, E6. reflexivity. }
  exists (six v1 v2 v3 v4 v5 v6). split; [exact Hrun|].
  split.
  { rewrite categories_dom. unfold six. simpl list_to_map.
    rewrite !dom_insert_L, dom_empty_L. set_solver. }
  intros category weight Hc.
  destruct (Hv _ _ Hc) as (v & E & B & Hnear).
  destruct (combine_metrics_returns _ _ _ Hrun _ _ Hc) as (v' & E' & Hlook).
  assert (v' = v) by congruence. subst v'.
  exists v. split; [assumption|]. split; [assumption|]. by split.
Qed.

Lemma combine_metrics_rules_witness :
  (∀ category weight s e,
     categories !! category = Some weight →
     0 ≤ s ≤ 100 → 0 ≤ e ≤ 100 →
     ∃ v, combined_score s e weight = Ok v ∧ 0 ≤ v ≤ weight
          ∧ nearest_to_exact weight s e v)
  ∧ (∀ (static ai combined : gmap string Z) category weight,
       _combine_metrics static ai = Ok combined →
       categories !! category = Some weight →
       ∃ v, combined_score (get static category 0) (get ai category 0) weight
            = Ok v
            ∧ combined !! category = Some v
            ∧ (ai !! category = None → get ai category 0 = 0)
            ∧ (0 ≤ get static category 0 ≤ 100 →
               0 ≤ get ai category 0 ≤ 100 →
               0 ≤ v ≤ weight
               ∧ nearest_to_exact weight (get static category 0)
                   (get ai category 0) v))
  ∧ ∃ combined : gmap string Z,
      _combine_metrics full_marks ∅ = Ok combined
      ∧ dom combined = dom categories
      ∧ ∀ category weight,
          categories !! category = Some weight →
          ∃ v, combined_score (get full_marks category 0)
                              (get (∅ : gmap string Z) category 0) weight = Ok v
               ∧ combined !! category = Some v
               ∧ 0 ≤ v ≤ weight
               ∧ nearest_to_exact weight (get full_marks category 0)
                   (get (∅ : gmap string Z) category 0) v.
Proof.
  apply (combine_metrics_rules full_marks ∅).
  - intros category v Hv.
    assert (Hin : (category, v) ∈ map_to_list full_marks)
      by by apply elem_of_map_to_list.
    apply list_elem_of_In in Hin. vm_compute in Hin.
    intuition (simplify_eq; lia).
  - intros category v Hv. by rewrite lookup_empty in Hv.
Defined.

(** *** The overall score *)

Lemma sum_values_insert (d : gmap string Z) (key : string) (v : Z) :
  d !! key = None → sum_values (<[key := v]> d) = sum_values d + v.
Proof.
  intros Hnone. unfold sum_values.
  rewrite map_fold_insert_L; [reflexivity | intros; lia | done].
Qed.

Lemma sum_values_six (n m c f r b : Z) :
  sum_values (six n m c f r b) = n + m + c + f + r + b.
Proof.
  unfold six. simpl list_to_map.
  rewrite !sum_values_insert by reflexivity.
  unfold sum_values. rewrite map_fold_empty. lia.
Qed.

(** A dictionary over the six categories is the dictionary of its six
    values. *)
Lemma six_categories (metrics : gmap string Z) :
  dom metrics = dom categories →
  ∃ n m c f r b,
    metrics = six n m c f r b
    ∧ metrics !! "naming" = Some n ∧ metrics !! "modularity" = Some m
    ∧ metrics !! "comments" = Some c ∧ metrics !! "formatting" = Some f
    ∧ metrics !! "reusability" = Some r
    ∧ metrics !! "best_practices" = Some b.
Proof.
  intros Hdom.
  assert (Hsome : ∀ key, key ∈ dom categories → is_Some (metrics !! key)).
  { intros key Hkey. apply elem_of_dom. by rewrite Hdom. }
  assert (Hnone : ∀ key, key ∉ dom categories → metrics !! key = None).
  { intros key Hkey. apply not_elem_of_dom. by rewrite Hdom. }
  rewrite categories_dom in Hsome, Hnone.
  destruct (Hsome "naming" ltac:(set_solver)) as [n Hn].
  destruct (Hsome "modularity" ltac:(set_solver)) as [m Hm].
  destruct (Hsome "comments" ltac:(set_solver)) as [c Hc].
  destruct (Hsome "formatting" ltac:(set_solver)) as [f Hf].
  destruct (Hsome "reusability" ltac:(set_solver)) as [r Hr].
  destruct (Hsome "best_practices" ltac:(set_solver)) as [b Hb].
  exists n, m, c, f, r, b. split; [|done].
  apply map_eq. intros key. unfold six. simpl list_to_map.
  repeat match goal with
         | |- _ = <[?k := _]> _ !! key =>
             destruct (decide (k = key)) as [<-|?];
             [by rewrite lookup_insert_eq | rewrite lookup_insert_ne by done]
         end.
  rewrite lookup_empty. apply Hnone.
  rewrite !elem_of_union, !elem_of_singleton. intuition congruence.
Qed.

Lemma scaled_back_all : forallb scaled_back (zrange 101) = true.
Proof. vm_compute. reflexivity. Qed.

Lemma sum_values_categories : sum_values categories = 100.
Proof. vm_compute. reflexivity. Qed.

Lemma calculate_overall_score_sum (metrics : gmap string Z) :
  0 ≤ sum_values metrics ≤ 100 →
  _calculate_overall_score metrics = Ok (sum_values metrics).
Proof.
  intros Hsum. unfold _calculate_overall_score.
  rewrite sum_values_categories.
  pose proof scaled_back_all as Hall. rewrite forallb_forall in Hall.
  specialize (Hall _ (zrange_elem 101 (sum_values metrics) ltac:(lia))).
  unfold scaled_back in Hall.
  destruct (_ ≫= _) as [v|]; [|discriminate].
  apply Z.eqb_eq in Hall. by subst v.
Qed.

(** C3: when the six combined values lie between 0 and the maxima of
    their categories, the maxima sum to 100, the overall score is
    computed without an exception, it equals the sum of the six combined
    values, and it lies between 0 and 100. *)
Theorem overall_score_is_the_sum (metrics : gmap string Z) :
  dom metrics = dom categories →
  within_maxima metrics →
  sum_values categories = 100
  ∧ ∃ n m c f r b,
      metrics !! "naming" = Some n ∧ metrics !! "modularity" = Some m
      ∧ metrics !! "comments" = Some c ∧ metrics !! "formatting" = Some f
      ∧ metrics !! "reusability" = Some r
      ∧ metrics !! "best_practices" = Some b
      ∧ _calculate_overall_score metrics = Ok (n + m + c + f + r + b)
      ∧ 0 ≤ n + m + c + f + r + b ≤ 100.
Proof.
  intros Hdom Hmax. split; [exact sum_values_categories|].
  destruct (six_categories metrics Hdom)
    as (n & m & c & f & r & b & Hsix & Hn & Hm & Hc & Hf & Hr & Hb).
  exists n, m, c, f, r, b. repeat (split; [assumption|]).
  pose proof (Hmax _ _ 10 Hn eq_refl). pose proof (Hmax _ _ 20 Hm eq_refl).
  pose proof (Hmax _ _ 20 Hc eq_refl). pose proof (Hmax _ _ 15 Hf eq_refl).
  pose proof (Hmax _ _ 15 Hr eq_refl). pose proof (Hmax _ _ 20 Hb eq_refl).
  assert (Hsum : sum_values metrics = n + m + c + f + r + b)
    by (rewrite Hsix at 1; apply sum_values_six).
  split; [|lia].
  rewrite <- Hsum. apply calculate_overall_score_sum. lia.
Qed.

Lemma overall_score_is_the_sum_witness :
  sum_values categories = 100
  ∧ ∃ n m c f r b,
      six 7 14 20 13 15 17 !! "naming" = Some n
      ∧ six 7 14 20 13 15 17 !! "modularity" = Some m
      ∧ six 7 14 20 13 15 17 !! "comments" = Some c
      ∧ six 7 14 20 13 15 17 !! "formatting" = Some f
      ∧ six 7 14 20 13 15 17 !! "reusability" = Some r
      ∧ six 7 14 20 13 15 17 !! "best_practices" = Some b
      ∧ _calculate_overall_score (six 7 14 20 13 15 17)
        = Ok (n + m + c + f + r + b)
      ∧ 0 ≤ n + m + c + f + r + b ≤ 100.
Proof.
  apply (overall_score_is_the_sum (six 7 14 20 13 15 17)).
  - reflexivity.
  - intros category v weight Hv Hc.
    destruct (categories_cases _ _ Hc)
      as [[-> ->]|[[-> ->]|[[-> ->]|[[-> ->]|[[-> ->]|[-> ->]]]]]];
      vm_compute in Hv; injection Hv as <-; lia.
Defined.

End Combiner.

(** ** The analysis of one request *)

Module Request.
Import PyStrFacts.

Lemma language_map_get (language : string) :
  get language_map language language = normalized language.
Proof.
  unfold get, language_map, normalized. simpl list_to_map.
  rewrite !lookup_insert, lookup_empty.
  repeat case_decide; subst; simpl; try reflexivity;
    intuition congruence.
Qed.

Lemma normalized_not_jsx (language : string) : normalized language ≠ "jsx".
Proof.
  unfold normalized. repeat case_decide; naive_solver.
Qed.

(** C9: a language that after the aliases is neither [python] nor
    [javascript] makes [analyze_code] raise [ValueError]; the log of
    calls is left as it was, so neither the parser (the first step of
    the static scores) nor the generative model has been called, and no
    result is returned. *)
Theorem unsupported_language_is_rejected
    (ast_parse : string → result ast)
    (generate_content : string → result string)
    (iter_set : gset string → list string)
    (code language : string) (context : option string) (log : list event) :
  normalized language ≠ "python" →
  normalized language ≠ "javascript" →
  get language_map language language = normalized language
  ∧ analyze_code ast_parse generate_content iter_set code language context log
    = (Raise (ValueError ("Unsupported language: " ++ normalized language)), log).
Proof.
  intros Hpy Hjs. split; [apply language_map_get|].
  unfold analyze_code. rewrite language_map_get.
  pose proof (normalized_not_jsx language) as Hjsx.
  apply bind_raise.
  rewrite (proj2 (String.eqb_neq _ _) Hpy).
  rewrite bool_decide_eq_false_2; [reflexivity|].
  rewrite !elem_of_cons, elem_of_nil. tauto.
Qed.

Lemma unsupported_language_is_rejected_witness :
  get language_map "rb" "rb" = normalized "rb"
  ∧ analyze_code (fun _ => Raise SyntaxError) (fun _ => Ok "") elements
      "puts 1" "rb" None []
    = (Raise (ValueError ("Unsupported language: " ++ normalized "rb")), []).
Proof.
  apply (unsupported_language_is_rejected
           (fun _ => Raise SyntaxError) (fun _ => Ok "") elements
           "puts 1" "rb" None []).
  - vm_compute. discriminate.
  - vm_compute. discriminate.
Defined.

(** *** A whole request *)

Example sample_request :
  analyze_code (fun _ => Ok sample_tree) (fun _ => Ok sample_response) elements
    sample_code "py" None []
  = (Ok {| overall_score := 38;
           breakdown :=
             list_to_map
               [("naming", 3); ("modularity", 8); ("comments", 8);
                ("formatting", 5); ("reusability", 6); ("best_practices", 8)];
           recommendations := ["Add docstrings"];
           detailed_feedback := sample_response |},
     [EvParse sample_code; EvParse sample_code;
      EvGenerate (prompt_for sample_code "python" None)]).
Proof. vm_compute. reflexivity. Qed.

End Request.

(** * Further properties *)

(** ** The tree rules in closed form *)

Module TreeRules.

Lemma loop_ext {A S : Type} (f g : S → A → S) (items : list A) :
  (∀ s x, f s x = g s x) → ∀ init, loop f items init = loop g items init.
Proof.
  intros Hfg. unfold loop.
  induction items as [|x items IH]; intros init; simpl; [reflexivity|].
  by rewrite Hfg, IH.
Qed.

Lemma count_where_walk (p : ast → bool) (tree : ast) :
  count_where p (walk tree) = count_where p (nodes tree).
Proof. apply count_where_perm, walk_perm. Qed.

(** X1: the naming score is 10 minus 2 for each function definition or
    name, anywhere in the tree, whose identifier is not in snake case,
    and not below 0: the order of the walk plays no part.  It is 10
    exactly when no identifier offends and 0 exactly when five or more
    do. *)
Theorem naming_closed_form (tree : ast) :
  let offenders := count_where offending_name (nodes tree) in
  _check_naming_conventions tree = Z.max 0 (10 - 2 * offenders)
  ∧ (_check_naming_conventions tree = 10 ↔ offenders = 0)
  ∧ (_check_naming_conventions tree = 0 ↔ 5 ≤ offenders).
Proof.
  intros offenders.
  assert (H : _check_naming_conventions tree = Z.max 0 (10 - 2 * offenders)).
  { unfold _check_naming_conventions. cbv zeta.
    rewrite (loop_ext _ (fun score node =>
               if offending_name node then score - 2 else score)).
    - by rewrite loop_count, count_where_walk.
    - intros s []; reflexivity. }
  pose proof (count_where_nonneg offending_name (nodes tree)).
  fold offenders in H0. rewrite H. lia.
Qed.



Lemma loop_either_penalty {A : Type} (p q : A → bool) (a b : Z) (items : list A) :
  (∀ x, p x = true → q x = false) →
  ∀ init,
    loop (fun score x =>
            if p x then score - a else if q x then score - b else score)
         items init
    = init - a * count_where p items - b * count_where q items.
Proof.
  intros Hpq. unfold loop.
  induction items as [|x items IH]; intros init.
  - unfold count_where. simpl. lia.
  - rewrite !count_where_cons. simpl. rewrite IH.
    destruct (p x) eqn:Hp; [rewrite (Hpq x Hp)|destruct (q x)]; lia.
Qed.

(** X3: the best-practices score is 20 minus 5 for each [global]
    statement and minus 3 for each [try] without a handler, counted over
    the whole tree, and not below 0. *)
Theorem best_practices_closed_form (tree : ast) :
  _check_best_practices tree
  = Z.max 0 (20 - 5 * count_where is_global (nodes tree)
                - 3 * count_where bare_try (nodes tree)).
Proof.
  unfold _check_best_practices. cbv zeta.
  rewrite (loop_ext _ (fun score node =>
             if is_global node then score - 5
             else if bare_try node then score - 3 else score)).
  - rewrite loop_either_penalty, !count_where_walk; [reflexivity|].
    by intros [].
  - intros s []; reflexivity.
Qed.

(** *** The reusability rule *)

Lemma count_call_lookup (items : list ast) (id : string) :
  ∀ calls : gmap string Z,
    let n := count_where (fun node => bool_decide (callee node = Some id)) items in
    loop count_call items calls !! id
    = match calls !! id with
      | Some v => Some (v + n)
      | None => if n =? 0 then None else Some n
      end.
Proof.
  unfold loop.
  induction items as [|node items IH]; intros calls; cbv zeta.
  - unfold count_where. simpl. destruct (calls !! id); [f_equal; lia | done].
  - rewrite count_where_cons. simpl fold_left. rewrite IH. cbv zeta.
    pose proof (count_where_nonneg
                  (fun node => bool_decide (callee node = Some id)) items)
      as Hn.
    set (n := count_where _ items) in *.
    unfold count_call. destruct (callee node) as [id'|] eqn:Hcallee.
    + destruct (decide (id' = id)) as [->|Hne].
      * rewrite bool_decide_eq_true_2 by done. rewrite lookup_insert_eq.
        destruct (calls !! id) as [v|]; simpl.
        -- f_equal. lia.
        -- destruct (Z.eqb_spec (1 + n) 0); [lia | f_equal; lia].
      * rewrite bool_decide_eq_false_2 by congruence.
        rewrite lookup_insert_ne by done. rewrite Z.add_0_l. reflexivity.
    + rewrite bool_decide_eq_false_2 by congruence.
      rewrite Z.add_0_l. reflexivity.
Qed.

Lemma count_where_pos {A : Type} (p : A → bool) (items : list A) :
  0 < count_where p items ↔ ∃ x, x ∈ items ∧ p x = true.
Proof.
  induction items as [|x items IH].
  - unfold count_where. simpl. split; [lia|]. intros (x & Hx & _).
    by apply elem_of_nil in Hx.
  - rewrite count_where_cons.
    pose proof (count_where_nonneg p items).
    destruct (p x) eqn:Hp.
    + split; [|lia]. intros _. exists x. split; [left | done].
    + rewrite Z.add_0_l, IH. split.
      * intros (y & Hy & Hpy). exists y. split; [by right | done].
      * intros (y & Hy & Hpy). apply elem_of_cons in Hy as [->|Hy];
          [congruence | by exists y].
Qed.

Lemma penalty_fold (calls : gmap string Z) :
  map_fold (fun _ count total => if 3 <? count then total + 2 else total)
           0 calls
  = 2 * Z.of_nat (size (filter (fun kv : string * Z => 3 < kv.2) calls)).
Proof.
  apply (map_fold_weak_ind
           (fun total (m : gmap string Z) =>
              total = 2 * Z.of_nat (size (filter (fun kv : string * Z => 3 < kv.2) m)))).
  - by rewrite map_filter_empty, map_size_empty.
  - intros id count m total Hnone ->.
    destruct (Z.ltb_spec 3 count).
    + rewrite map_filter_insert_True by done.
      rewrite map_size_insert_None; [lia|].
      by apply map_lookup_filter_None_2; left.
    + rewrite map_filter_insert_not' ; [done | simpl; lia |].
      intros y Hy. congruence.
Qed.

(** X4: the reusability score is 15 minus 2 for each identifier that
    more than three calls in the tree name, whatever the number of
    calls beyond three, and not below 0; it is 15 exactly when no
    identifier is called more than three times. *)
Theorem reusability_closed_form (tree : ast) :
  _check_reusability tree = Z.max 0 (15 - 2 * Z.of_nat (size (overused tree)))
  ∧ (_check_reusability tree = 15 ↔ ∀ id, calls_to id tree ≤ 3).
Proof.
  set (calls := loop count_call (walk tree) ∅).
  assert (Hlook : ∀ id, calls !! id
                        = if calls_to id tree =? 0 then None
                          else Some (calls_to id tree)).
  { intros id. unfold calls. rewrite count_call_lookup. cbv zeta.
    rewrite lookup_empty. by rewrite count_where_walk. }
  assert (Hdom : dom (filter (fun kv : string * Z => 3 < kv.2) calls)
                 = overused tree).
  { apply dom_filter_L. intros id. unfold overused.
    rewrite elem_of_filter, elem_of_list_to_set, list_elem_of_omap.
    rewrite Hlook. split.
    - intros [Hover Hcalled]. exists (calls_to id tree).
      destruct (Z.eqb_spec (calls_to id tree) 0); [lia | done].
    - intros (v & Hv & Hover).
      destruct (Z.eqb_spec (calls_to id tree) 0); [done|].
      injection Hv as <-. simpl in Hover. split; [done|].
      assert (Hpos : 0 < calls_to id tree) by lia.
      apply count_where_pos in Hpos as (node & Hnode & Hp).
      exists node. split; [done|]. by apply bool_decide_eq_true in Hp. }
  assert (Hscore : _check_reusability tree
                   = Z.max 0 (15 - 2 * Z.of_nat (size (overused tree)))).
  { unfold _check_reusability. cbv zeta.
    rewrite (loop_ext _ count_call).
    - fold calls. by rewrite penalty_fold, <- Hdom, size_dom.
    - intros s [| | | | |[]| | | | | |]; reflexivity. }
  split; [exact Hscore|]. rewrite Hscore. split.
  - intros Hmax id.
    destruct (Z.le_gt_cases (calls_to id tree) 3) as [|Hover]; [done|].
    assert (Hin : id ∈ overused tree).
    { unfold overused. apply elem_of_filter. split; [lia|].
      apply elem_of_list_to_set, list_elem_of_omap.
      assert (Hpos : 0 < calls_to id tree) by lia.
      apply count_where_pos in Hpos as (node & Hnode & Hp).
      exists node. split; [done|]. by apply bool_decide_eq_true in Hp. }
    assert (size (overused tree) ≠ 0%nat).
    { intros Hsize. apply size_empty_inv in Hsize.
      by apply (not_elem_of_empty (C:=gset string) id), Hsize. }
    lia.
  - intros Hall.
    assert (Hempty : overused tree = ∅).
    { apply set_eq. intros id. split; [|by intros []%not_elem_of_empty].
      unfold overused. rewrite elem_of_filter. intros [Hover _].
      specialize (Hall id). lia. }
    rewrite Hempty, size_empty. reflexivity.
Qed.

End TreeRules.

(** ** The snake-case pattern *)

Module SnakeCase.
Import PyStr PyStrFacts.

Lemma at_dollar_cases (rest : string) :
  at_dollar rest = true ↔ rest = "" ∨ rest = nl.
Proof.
  destruct rest as [|c [|c' rest]]; simpl.
  - split; [by left | done].
  - split.
    + intros ->%Ascii.eqb_eq. by right.
    + intros [|[= ->]]; [done | reflexivity].
  - split; [done | intros [|]; discriminate].
Qed.

Lemma no_newline_app (a b : string) :
  no_newline (a ++ b) = no_newline a && no_newline b.
Proof. apply forallb_str_app. Qed.

(** X5: the pattern of the naming rule accepts exactly the identifiers
    in snake case, and such an identifier followed by one final newline;
    on an identifier without a newline it is the snake-case test. *)
Theorem match_snake_case_spec (name : string) :
  (match_snake_case name = true
   ↔ snake_case name = true
     ∨ ∃ body, name = body ++ nl ∧ snake_case body = true)
  ∧ (no_newline name = true → match_snake_case name = snake_case name).
Proof.
  assert (Hspec : match_snake_case name = true
                  ↔ snake_case name = true
                    ∨ ∃ body, name = body ++ nl ∧ snake_case body = true).
  { destruct name as [|c rest]; simpl.
    - split; [done|]. intros [|(body & Hbody & Hsnake)]; [done|].
      destruct body; discriminate.
    - destruct (span is_snake_tail rest) as [run rest'] eqn:Hspan.
      pose proof (Extractor.span_spec _ _ _ _ Hspan) as (-> & Hrun & Hstop).
      simpl. rewrite andb_true_iff, at_dollar_cases. split.
      + intros [Hc [->| ->]].
        * left. by rewrite forallb_str_app, Hc, Hrun.
        * right. exists (String c run). split; [reflexivity|].
          simpl. by rewrite Hc, Hrun.
      + intros [[Hc Htail]%andb_true_iff|(body & Hbody & Hsnake)].
        * split; [done|]. left.
          rewrite forallb_str_app in Htail.
          apply andb_true_iff in Htail as [_ Htail].
          destruct rest' as [|c' rest']; [done|].
          simpl in Hstop, Htail. apply andb_true_iff in Htail as [Hc' _].
          by rewrite Hc' in Hstop.
        * destruct body as [|c0 body]; [discriminate|].
          simpl in Hbody, Hsnake. injection Hbody as -> Hrest.
          apply andb_true_iff in Hsnake as [Hc Hbody].
          split; [done|]. right.
          assert (Hsp : span is_snake_tail (body ++ nl) = (body, nl))
            by by apply Extractor.span_app.
          rewrite <- Hrest, Hspan in Hsp. by injection Hsp as _ ->. }
  split; [exact Hspec|]. intros Hline.
  destruct (match_snake_case name), (snake_case name); try reflexivity.
  - destruct (proj1 Hspec eq_refl) as [|(body & -> & _)]; [done|].
    rewrite no_newline_app in Hline.
    apply andb_true_iff in Hline as [_ Hline]. discriminate.
  - apply (proj2 Hspec). by left.
Qed.

End SnakeCase.

(** ** More on the formatting rule *)

Module FormattingMore.
Import PyStr PyStrFacts.

(** X6: the score of two texts joined by a newline is 15 minus 2 for
    each penalised line of either, not below 0, so it is no higher than
    the score of either part; a text scores 0 exactly when eight or more
    of its lines are penalised, and the empty text scores 15. *)
Theorem formatting_of_joined_texts (a b : string) :
  let bad := fun code => count_where penalised_under_four (lines code) in
  _check_formatting (a ++ nl ++ b) = Z.max 0 (15 - 2 * (bad a + bad b))
  ∧ _check_formatting (a ++ nl ++ b) ≤ _check_formatting a
  ∧ _check_formatting (a ++ nl ++ b) ≤ _check_formatting b
  ∧ (_check_formatting a = 0 ↔ 8 ≤ bad a)
  ∧ _check_formatting "" = 15.
Proof.
  intros bad.
  pose proof (count_where_nonneg penalised_under_four (lines a)) as Ha.
  pose proof (count_where_nonneg penalised_under_four (lines b)) as Hb.
  fold (bad a) in Ha. fold (bad b) in Hb.
  assert (Hjoin : _check_formatting (a ++ nl ++ b)
                  = Z.max 0 (15 - 2 * (bad a + bad b))).
  { rewrite Formatting.check_formatting_count. unfold lines.
    change (nl ++ b) with (String newline b).
    by rewrite split_app, count_where_app. }
  rewrite Hjoin, (Formatting.check_formatting_count a),
    (Formatting.check_formatting_count b).
  fold (bad a). fold (bad b).
  split; [reflexivity|]. split; [lia|]. split; [lia|]. split; [lia|].
  reflexivity.
Qed.

End FormattingMore.

(** ** More on the extractor *)

Module ExtractorMore.
Import PyStr PyStrFacts.








Lemma recorded_spec (line key : string) (value : Z) :
  recorded line = Some (key, value)
  ↔ ∃ word digits,
      score_line line word digits
      ∧ key = lower word ∧ value = decimal_value digits.
Proof.
  unfold recorded. split.
  - destruct (match_score_line line) as [[word digits]|] eqn:Hm; [|done].
    intros [= <- <-]. exists word, digits.
    by apply Extractor.match_score_line_spec in Hm.
  - intros (word & digits & Hm%Extractor.match_score_line_spec & -> & ->).
    by rewrite Hm.
Qed.

Lemma too_long_spec (line : string) :
  too_long line = true
  ↔ ∃ word digits,
      score_line line word digits
      ∧ (Builtins.int_max_str_digits < String.length digits)%nat.
Proof.
  unfold too_long. split.
  - destruct (match_score_line line) as [[word digits]|] eqn:Hm; [|done].
    intros Hlong%Nat.ltb_lt. exists word, digits.
    by apply Extractor.match_score_line_spec in Hm.
  - intros (word & digits & Hm%Extractor.match_score_line_spec & Hlong).
    rewrite Hm. by apply Nat.ltb_lt.
Qed.

Lemma value_for_recorded (key line : string) (value : Z) :
  value_for key line = Some value ↔ recorded line = Some (key, value).
Proof.
  unfold value_for. destruct (recorded line) as [[k v]|]; [|done].
  case_decide; split; intros [=]; subst; try done.
Qed.

Lemma last_elem_of {A : Type} (l : list A) (x : A) : last l = Some x → x ∈ l.
Proof.
  intros [l' ->]%last_Some. apply elem_of_app. right. by left.
Qed.

(** Either every line converts, or there is a first one that does
    not. *)
Lemma first_too_long (feedback_lines : list string) :
  convertible feedback_lines
  ∨ ∃ before line after,
      feedback_lines = (before ++ line :: after)%list
      ∧ convertible before ∧ too_long line = true.
Proof.
  induction feedback_lines as [|l ls IH]; [left; constructor|].
  destruct (too_long l) eqn:Hl.
  - right. exists [], l, ls. split; [done|]. split; [constructor | done].
  - destruct IH as [IH|(before & line & after & -> & Hb & Hline)].
    + left. by constructor.
    + right. exists (l :: before), line, after.
      split; [done|]. split; [by constructor | done].
Qed.

Lemma extract_scores_inv (feedback : string) (scores : gmap string Z) :
  _extract_scores feedback = Ok scores →
  convertible (lines feedback)
  ∧ scores = loop record_line (lines feedback) ∅.
Proof.
  intros Hok.
  destruct (first_too_long (lines feedback))
    as [Hc|(before & line & after & Hl & Hb & Hline)].
  - split; [done|]. rewrite (Extractor.extract_scores_ok _ Hc) in Hok.
    congruence.
  - destruct (Extractor.extract_scores_raise _ _ _ _ Hl Hb Hline)
      as (w & d & _ & Hr).
    congruence.
Qed.




(** X8: the extractor returns exactly when no line of the form of the
    pattern has more than 4300 digits, and then a key is in the scores
    exactly when some line has that form with the key as its lower-cased
    word; otherwise it raises [ValueError] for a run of more than 4300
    digits, and never anything else.  Feedback without a line of the
    form gives the empty dictionary. *)
Theorem extract_scores_outcomes (feedback : string) :
  ((∃ scores, _extract_scores feedback = Ok scores)
   ↔ ∀ line word digits,
       line ∈ lines feedback → score_line line word digits →
       (String.length digits ≤ Builtins.int_max_str_digits)%nat)
  ∧ (∀ scores key,
       _extract_scores feedback = Ok scores →
       (key ∈ dom scores
        ↔ ∃ line word digits,
            line ∈ lines feedback ∧ score_line line word digits
            ∧ key = lower word))
  ∧ (∀ e, _extract_scores feedback = Raise e →
          ∃ line word digits,
            line ∈ lines feedback ∧ score_line line word digits
            ∧ (Builtins.int_max_str_digits < String.length digits)%nat
            ∧ e = ValueError
                    (Builtins.exceeds_the_limit (String.length digits)))
  ∧ ((∀ line word digits,
        line ∈ lines feedback → ¬ score_line line word digits) →
     _extract_scores feedback = Ok ∅).
Proof.
  assert (Hconv : convertible (lines feedback)
                  ↔ ∀ line word digits,
                      line ∈ lines feedback → score_line line word digits →
                      (String.length digits ≤ Builtins.int_max_str_digits)%nat).
  { unfold convertible. rewrite Forall_forall. split.
    - intros Hall line word digits Hline Hscore.
      specialize (Hall line Hline).
      destruct (Nat.le_gt_cases (String.length digits)
                  Builtins.int_max_str_digits) as [|Hlong]; [done|].
      assert (too_long line = true)
        by (apply too_long_spec; by exists word, digits).
      congruence.
    - intros Hall line Hline.
      destruct (too_long line) eqn:Hlong; [|done].
      apply too_long_spec in Hlong as (word & digits & Hscore & Hlong).
      specialize (Hall line word digits Hline Hscore). lia. }
  split; [|split; [|split]].
  - rewrite <- Hconv. split.
    + by intros [scores [? _]%extract_scores_inv].
    + intros Hc. eexists. by apply Extractor.extract_scores_ok.
  - intros scores key [_ ->]%extract_scores_inv.
    rewrite elem_of_dom, Extractor.record_lookup. unfold last_recorded. split.
    + intros [value (line & Hline & Hv)%last_elem_of%list_elem_of_omap].
      apply value_for_recorded, recorded_spec in Hv
        as (word & digits & Hscore & -> & _).
      by exists line, word, digits.
    + intros (line & word & digits & Hline & Hscore & ->).
      apply last_is_Some. intros Hnil.
      assert (Hin : decimal_value digits
                    ∈ omap (value_for (lower word)) (lines feedback)).
      { apply list_elem_of_omap. exists line. split; [done|].
        apply value_for_recorded, recorded_spec. by exists word, digits. }
      rewrite Hnil in Hin. by apply elem_of_nil in Hin.
  - intros e Hraise.
    destruct (first_too_long (lines feedback))
      as [Hc|(before & line & after & Hl & Hb & Hline)].
    + rewrite (Extractor.extract_scores_ok _ Hc) in Hraise. discriminate.
    + destruct (Extractor.extract_scores_raise _ _ _ _ Hl Hb Hline)
        as (word & digits & Hm & Hr).
      exists line, word, digits.
      split; [rewrite Hl; apply elem_of_app; right; by left|].
      split; [by apply Extractor.match_score_line_spec|].
      split; [|congruence].
      unfold too_long in Hline. rewrite Hm in Hline. by apply Nat.ltb_lt.
  - intros Hnone.
    assert (Hc : convertible (lines feedback)).
    { apply Hconv. intros line word digits Hline Hscore.
      by destruct (Hnone line word digits Hline). }
    rewrite (Extractor.extract_scores_ok _ Hc). f_equal.
    apply map_eq. intros key. rewrite Extractor.record_lookup, lookup_empty.
    unfold last_recorded.
    destruct (last _) as [value|] eqn:Hlast; [|done].
    apply last_elem_of, list_elem_of_omap in Hlast as (line & Hline & Hv).
    apply value_for_recorded, recorded_spec in Hv
      as (word & digits & Hscore & _).
    by destruct (Hnone line word digits Hline).
Qed.

Lemma lines_join (a b : string) :
  lines (a ++ nl ++ b) = (lines a ++ lines b)%list.
Proof.
  unfold lines. change (nl ++ b) with (String newline b). apply split_app.
Qed.

Lemma extract_scores_raise_at (feedback line : string)
    (before after : list string) (word digits : string) :
  lines feedback = (before ++ line :: after)%list →
  convertible before → too_long line = true →
  match_score_line line = Some (word, digits) →
  _extract_scores feedback
  = Raise (ValueError (Builtins.exceeds_the_limit (String.length digits))).
Proof.
  intros Hl Hb Hline Hm.
  destruct (Extractor.extract_scores_raise _ _ _ _ Hl Hb Hline)
    as (word' & digits' & Hm' & Hr).
  congruence.
Qed.

(** X9: extraction distributes over feedback joined by a newline: the
    recommendations are those of the first part followed by those of
    the second; the scores are those of the second part, completed by
    those of the first for the keys the second does not record, and the
    extractor raises on the joined feedback what it raises on the first
    part or, the first part converting, on the second. *)
Theorem extraction_of_joined_feedback (a b : string) :
  _extract_recommendations (a ++ nl ++ b)
  = (_extract_recommendations a ++ _extract_recommendations b)%list
  ∧ _extract_scores (a ++ nl ++ b)
    = (scores_a ← _extract_scores a;
       scores_b ← _extract_scores b;
       mret (scores_b ∪ scores_a)).
Proof.
  split.
  { unfold _extract_recommendations. by rewrite lines_join, omap_app. }
  destruct (first_too_long (lines a))
    as [Ha|(before & line & after & Hl & Hb & Hline)].
  - rewrite (Extractor.extract_scores_ok a Ha). cbn [mbind result_bind].
    destruct (first_too_long (lines b))
      as [Hb|(before & line & after & Hl & Hb & Hline)].
    + rewrite (Extractor.extract_scores_ok b Hb). cbn [mbind result_bind mret result_ret].
      rewrite Extractor.extract_scores_ok
        by (rewrite lines_join; by apply Forall_app).
      f_equal. apply map_eq. intros key.
      rewrite lookup_union, !Extractor.record_lookup.
      unfold last_recorded. rewrite lines_join, omap_app, last_app.
      by destruct (last (omap (value_for key) (lines b))),
                  (last (omap (value_for key) (lines a))).
    + pose proof Hline as (word & digits & Hm%Extractor.match_score_line_spec & _)%too_long_spec.
      rewrite (extract_scores_raise_at b line before after word digits)
        by done.
      cbn [mbind result_bind].
      apply (extract_scores_raise_at _ line (lines a ++ before) after word);
        [|by apply Forall_app|done|done].
      by rewrite lines_join, Hl, <- app_assoc.
  - pose proof Hline as (word & digits & Hm%Extractor.match_score_line_spec & _)%too_long_spec.
    rewrite (extract_scores_raise_at a line before after word digits) by done.
    cbn [mbind result_bind].
    apply (extract_scores_raise_at _ line before (after ++ lines b) word);
      [|done..].
    by rewrite lines_join, Hl, <- app_assoc.
Qed.

End ExtractorMore.

(** ** More on the combiners *)

Module CombinerMore.
Import Combiner.

(** The rounded value follows the exact one closely enough to be
    monotone. *)
Lemma combined_value_monotone (category : string) (weight s s' e e' : Z) :
  categories !! category = Some weight →
  0 ≤ s ≤ s' → s' ≤ 100 → 0 ≤ e ≤ e' → e' ≤ 100 →
  combined_value weight s e ≤ combined_value weight s' e'.
Proof.
  intros Hc Hs Hs' He He'.
  destruct (combined_score_nearest category weight s e Hc)
    as (v & Hv & _ & Hnear); [lia | lia |].
  destruct (combined_score_nearest category weight s' e' Hc)
    as (v' & Hv' & _ & Hnear'); [lia | lia |].
  unfold combined_value. rewrite Hv, Hv'.
  unfold nearest_to_exact, exact_thousandths in Hnear, Hnear'.
  destruct (decide (s = s' ∧ e = e')) as [[<- <-]|Hne].
  { assert (v = v') by congruence. lia. }
  destruct (categories_cases _ _ Hc)
    as [[_ ->]|[[_ ->]|[[_ ->]|[[_ ->]|[[_ ->]|[_ ->]]]]]]; lia.
Qed.

Lemma combined_value_ok (category : string) (weight s e : Z) :
  categories !! category = Some weight →
  0 ≤ s ≤ 100 → 0 ≤ e ≤ 100 →
  combined_score s e weight = Ok (combined_value weight s e).
Proof.
  intros Hc Hs He.
  destruct (combined_score_bounds category weight s e Hc Hs He) as (v & Hv & _).
  unfold combined_value. by rewrite Hv.
Qed.

(** X10: on scores from 0 to 100 the combined score of a category never
    drops when the static score or the external score rises, although
    it is computed in floating point and rounded. *)
Theorem combined_score_monotone (category : string) (weight s s' e e' : Z) :
  categories !! category = Some weight →
  0 ≤ s ≤ s' → s' ≤ 100 → 0 ≤ e ≤ e' → e' ≤ 100 →
  ∃ v v', combined_score s e weight = Ok v
          ∧ combined_score s' e' weight = Ok v'
          ∧ v ≤ v'.
Proof.
  intros Hc Hs Hs' He He'.
  exists (combined_value weight s e), (combined_value weight s' e').
  split; [apply (combined_value_ok category); [done | lia | lia]|].
  split; [apply (combined_value_ok category); [done | lia | lia]|].
  by apply (combined_value_monotone category).
Qed.

Lemma combined_score_monotone_witness :
  ∃ v v', combined_score 40 70 15 = Ok v
          ∧ combined_score 41 90 15 = Ok v'
          ∧ v ≤ v'.
Proof.
  apply (combined_score_monotone "formatting" 15 40 41 70 90);
    [reflexivity | lia | lia | lia | lia].
Defined.

(** X11: the combiner reads the two dictionaries at the six category keys
    only: dictionaries that agree there combine to the same result, so a
    key that is no category ("security", say) changes nothing. *)
Theorem combine_metrics_reads_categories_only
    (static_metrics static_metrics' ai_metrics ai_metrics' : gmap string Z) :
  agree_on_categories static_metrics static_metrics' →
  agree_on_categories ai_metrics ai_metrics' →
  _combine_metrics static_metrics ai_metrics
  = _combine_metrics static_metrics' ai_metrics'
  ∧ ∀ key value,
      categories !! key = None →
      _combine_metrics static_metrics (<[key := value]> ai_metrics)
      = _combine_metrics static_metrics ai_metrics.
Proof.
  assert (Hagree : ∀ s s' a a' : gmap string Z,
            agree_on_categories s s' → agree_on_categories a a' →
            _combine_metrics s a = _combine_metrics s' a').
  { intros s s' a a' Hs Ha.
    unfold _combine_metrics, categories_items. cbn [dict_comprehension].
    unfold get.
    rewrite (Hs "naming" 10 eq_refl), (Hs "modularity" 20 eq_refl),
      (Hs "comments" 20 eq_refl), (Hs "formatting" 15 eq_refl),
      (Hs "reusability" 15 eq_refl), (Hs "best_practices" 20 eq_refl).
    rewrite (Ha "naming" 10 eq_refl), (Ha "modularity" 20 eq_refl),
      (Ha "comments" 20 eq_refl), (Ha "formatting" 15 eq_refl),
      (Ha "reusability" 15 eq_refl), (Ha "best_practices" 20 eq_refl).
    reflexivity. }
  intros Hs Ha. split; [by apply Hagree|].
  intros key value Hkey. apply Hagree; [done|].
  intros category weight Hc. apply lookup_insert_ne. congruence.
Qed.

Lemma combine_metrics_reads_categories_only_witness :
  _combine_metrics full_marks (<[ "security" := 90 ]> ∅)
  = _combine_metrics full_marks ∅
  ∧ ∀ key value,
      categories !! key = None →
      _combine_metrics full_marks (<[key := value]> (<[ "security" := 90 ]> ∅))
      = _combine_metrics full_marks (<[ "security" := 90 ]> ∅).
Proof.
  apply (combine_metrics_reads_categories_only
           full_marks full_marks (<[ "security" := 90 ]> ∅) ∅).
  - intros category weight Hc. reflexivity.
  - intros category weight Hc. apply lookup_insert_ne.
    intros <-. vm_compute in Hc. discriminate.
Defined.

Lemma scaled_back_1000 :
  forallb scaled_back (zrange (Z.to_nat 1001)) = true.
Proof. vm_compute. reflexivity. Qed.

Lemma scaled_back_upto (total : Z) :
  0 ≤ total ≤ 1000 → scaled_back total = true.
Proof.
  intros Ht. pose proof scaled_back_1000 as Hall.
  rewrite forallb_forall in Hall. apply Hall.
  apply zrange_elem. rewrite Z2Nat.id; lia.
Qed.

(** X12: the overall score is not clamped to 100: for every dictionary,
    whatever its keys, whose values sum to a number from 0 to 1000 the
    overall score is that sum. *)
Theorem overall_score_is_not_clamped (metrics : gmap string Z) :
  0 ≤ sum_values metrics ≤ 1000 →
  _calculate_overall_score metrics = Ok (sum_values metrics).
Proof.
  intros Hsum. unfold _calculate_overall_score.
  rewrite sum_values_categories.
  pose proof (scaled_back_upto _ Hsum) as Hall.
  unfold scaled_back in Hall.
  destruct (_ ≫= _) as [v|]; [|discriminate].
  apply Z.eqb_eq in Hall. by subst v.
Qed.

Lemma overall_score_is_not_clamped_witness :
  _calculate_overall_score (six 31 20 20 15 15 30)
  = Ok (sum_values (six 31 20 20 15 15 30)).
Proof.
  apply (overall_score_is_not_clamped (six 31 20 20 15 15 30)).
  vm_compute. split; discriminate.
Defined.

End CombinerMore.

(** ** More on the recommendation combiner *)

Module RecommendationsMore.

(** X13: the recommendation combiner needs the naming and the modularity
    score and nothing else of the static scores: without "naming" it
    raises [KeyError] for that key, with it and without "modularity"
    it raises [KeyError] for "modularity", and with both it returns. *)
Theorem combine_recommendations_keys (iter_set : gset string → list string)
    (static_metrics : gmap string Z) (ai_recommendations : list string) :
  (static_metrics !! "naming" = None →
   _combine_recommendations iter_set static_metrics ai_recommendations
   = Raise (KeyError "naming"))
  ∧ (is_Some (static_metrics !! "naming") →
     static_metrics !! "modularity" = None →
     _combine_recommendations iter_set static_metrics ai_recommendations
     = Raise (KeyError "modularity"))
  ∧ ((∃ recs, _combine_recommendations iter_set static_metrics
                ai_recommendations = Ok recs)
     ↔ is_Some (static_metrics !! "naming")
       ∧ is_Some (static_metrics !! "modularity")).
Proof.
  unfold _combine_recommendations, getitem.
  destruct (static_metrics !! "naming") as [n|];
    destruct (static_metrics !! "modularity") as [m|]; simpl.
  - split; [done|]. split; [done|]. split; [by eauto|]. intros _. by eexists.
  - split; [done|]. split; [done|]. split.
    + by intros [recs ?]. + by intros [_ [? ?]].
  - split; [done|]. split; [by intros [? ?]|]. split.
    + by intros [recs ?]. + by intros [[? ?] _].
  - split; [done|]. split; [by intros [? ?]|]. split.
    + by intros [recs ?]. + by intros [[? ?] _].
Qed.



End RecommendationsMore.

(** ** Whole requests *)

Module RequestMore.
Import Combiner Request.

Section Runs.

Variable ast_parse : string → result ast.
Variable generate_content : string → result string.
Variable iter_set : gset string → list string.

(** For a language that stands for Python, the request is the static
    scorer followed by the rest of the pipeline. *)
Lemma analyze_code_python (code language : string) (context : option string)
    (log : list event) :
  normalized language = "python" →
  analyze_code ast_parse generate_content iter_set code language context log
  = (static_analysis ← _analyze_python ast_parse code;
     ai ← _get_ai_analysis generate_content code "python" context;
     combined_metrics ← lift (_combine_metrics static_analysis (ai_scores ai));
     recommendations ←
       lift (_combine_recommendations iter_set static_analysis
               (ai_recommendations ai));
     overall ← lift (_calculate_overall_score combined_metrics);
     mret {| overall_score := overall;
             breakdown := combined_metrics;
             recommendations := take 5 recommendations;
             detailed_feedback := ai_detailed_feedback ai |}) log.
Proof.
  intros Hpy. unfold analyze_code. by rewrite language_map_get, Hpy.
Qed.

Lemma generate_run (prompt : string) (log : list event) :
  generate generate_content prompt log
  = (generate_content prompt, (log ++ [EvGenerate prompt])%list).
Proof. reflexivity. Qed.

Lemma get_ai_analysis_ok (code language text : string) (context : option string)
    (scores : gmap string Z) (log : list event) :
  generate_content (prompt_for code language context) = Ok text →
  _extract_scores text = Ok scores →
  _get_ai_analysis generate_content code language context log
  = (Ok {| ai_detailed_feedback := text;
           ai_recommendations := _extract_recommendations text;
           ai_scores := scores |},
     (log ++ [EvGenerate (prompt_for code language context)])%list).
Proof.
  intros H Hscores. unfold _get_ai_analysis. cbv zeta.
  rewrite (bind_ok _ _ log (log ++ [EvGenerate (prompt_for code language context)])
             text) by (by rewrite generate_run, H).
  by rewrite Hscores.
Qed.

Lemma get_ai_analysis_bad_scores (code language text : string)
    (context : option string) (e : exception) (log : list event) :
  generate_content (prompt_for code language context) = Ok text →
  _extract_scores text = Raise e →
  _get_ai_analysis generate_content code language context log
  = (Raise e, (log ++ [EvGenerate (prompt_for code language context)])%list).
Proof.
  intros H Hscores. unfold _get_ai_analysis. cbv zeta.
  rewrite (bind_ok _ _ log (log ++ [EvGenerate (prompt_for code language context)])
             text) by (by rewrite generate_run, H).
  by rewrite Hscores.
Qed.

Lemma get_ai_analysis_raise (code language : string) (context : option string)
    (e : exception) (log : list event) :
  generate_content (prompt_for code language context) = Raise e →
  _get_ai_analysis generate_content code language context log
  = (Raise e, (log ++ [EvGenerate (prompt_for code language context)])%list).
Proof.
  intros H. unfold _get_ai_analysis. cbv zeta.
  apply bind_raise. by rewrite generate_run, H.
Qed.

Lemma lift_run {A : Type} (r : result A) (log : list event) :
  lift r log = (r, log).
Proof. reflexivity. Qed.

(** The rest of the pipeline once the static scores and the response
    are there. *)
Lemma analyze_code_after_model (code language text : string)
    (context : option string) (static scores : gmap string Z)
    (combined : gmap string Z) (recs : list string) (overall : Z)
    (log log1 : list event) :
  normalized language = "python" →
  _analyze_python ast_parse code log = (Ok static, log1) →
  generate_content (prompt_for code "python" context) = Ok text →
  _extract_scores text = Ok scores →
  _combine_metrics static scores = Ok combined →
  _combine_recommendations iter_set static (_extract_recommendations text)
  = Ok recs →
  _calculate_overall_score combined = Ok overall →
  analyze_code ast_parse generate_content iter_set code language context log
  = (Ok {| overall_score := overall;
           breakdown := combined;
           recommendations := take 5 recs;
           detailed_feedback := text |},
     (log1 ++ [EvGenerate (prompt_for code "python" context)])%list).
Proof.
  intros Hpy Hstatic Hgen Hscores Hcombined Hrecs Hoverall.
  rewrite analyze_code_python by done.
  rewrite (bind_ok _ _ _ _ _ Hstatic).
  rewrite (bind_ok _ _ _ _ _ (get_ai_analysis_ok _ _ _ _ _ _ Hgen Hscores)).
  cbn [ai_scores ai_recommendations ai_detailed_feedback].
  rewrite Hcombined, Hrecs.
  rewrite (bind_ok _ _ _ _ combined (lift_run _ _)).
  rewrite (bind_ok _ _ _ _ recs (lift_run _ _)).
  rewrite Hoverall.
  by rewrite (bind_ok _ _ _ _ overall (lift_run _ _)).
Qed.

Lemma combined_capped (category : string) (weight s e u : Z) :
  categories !! category = Some weight →
  0 ≤ s ≤ u → u ≤ 100 → 0 ≤ e ≤ 100 →
  ∃ v, combined_score s e weight = Ok v
       ∧ 0 ≤ v ≤ combined_value weight u 100.
Proof.
  intros Hc Hs Hu He.
  destruct (combined_score_bounds category weight s e Hc) as (v & Hv & Hb);
    [lia | lia |].
  exists v. split; [done|]. split; [lia|].
  pose proof (CombinerMore.combined_value_monotone category weight s u e 100 Hc)
    as Hmono.
  unfold combined_value in Hmono at 1. rewrite Hv in Hmono. apply Hmono; lia.
Qed.

(** With static scores between 0 and [bound] of the maximum of their
    category and external scores from 0 to 100, the combiner returns six
    values, each capped by the value at [bound] and 100. *)
Lemma combine_metrics_capped (static ai : gmap string Z) (bound : Z → Z) :
  (∀ category weight,
     categories !! category = Some weight →
     ∃ s, static !! category = Some s ∧ 0 ≤ s ≤ bound weight
          ∧ bound weight ≤ 100) →
  scores_in_range ai →
  ∃ n m c f r b,
    _combine_metrics static ai = Ok (six n m c f r b)
    ∧ 0 ≤ n ≤ combined_value 10 (bound 10) 100
    ∧ 0 ≤ m ≤ combined_value 20 (bound 20) 100
    ∧ 0 ≤ c ≤ combined_value 20 (bound 20) 100
    ∧ 0 ≤ f ≤ combined_value 15 (bound 15) 100
    ∧ 0 ≤ r ≤ combined_value 15 (bound 15) 100
    ∧ 0 ≤ b ≤ combined_value 20 (bound 20) 100.
Proof.
  intros Hstatic Hai.
  assert (Hv : ∀ category weight,
             categories !! category = Some weight →
             ∃ v, combined_score (get static category 0)
                                 (get ai category 0) weight = Ok v
                  ∧ 0 ≤ v ≤ combined_value weight (bound weight) 100).
  { intros category weight Hc.
    destruct (Hstatic _ _ Hc) as (s & Hs & Hb & Hu).
    unfold get at 1. rewrite Hs. simpl.
    apply (combined_capped category); [done | done | done |].
    by apply get_in_range. }
  destruct (Hv "naming" 10 eq_refl) as (v1 & E1 & B1).
  destruct (Hv "modularity" 20 eq_refl) as (v2 & E2 & B2).
  destruct (Hv "comments" 20 eq_refl) as (v3 & E3 & B3).
  destruct (Hv "formatting" 15 eq_refl) as (v4 & E4 & B4).
  destruct (Hv "reusability" 15 eq_refl) as (v5 & E5 & B5).
  destruct (Hv "best_practices" 20 eq_refl) as (v6 & E6 & B6).
  exists v1, v2, v3, v4, v5, v6. split; [|done].
  unfold _combine_metrics, categories_items. cbn [dict_comprehension].
  rewrite E1, E2, E3, E4, E5, E6. reflexivity.
Qed.

Lemma parsed_static_in_range (code : string) (tree : ast) :
  ∀ category weight,
    categories !! category = Some weight →
    ∃ s, (list_to_map
            [("naming", _check_naming_conventions tree);
             ("modularity", _check_modularity tree);
             ("comments", 20);
             ("formatting", _check_formatting code);
             ("reusability", _check_reusability tree);
             ("best_practices", _check_best_practices tree)]
          : gmap string Z) !! category = Some s
         ∧ 0 ≤ s ≤ weight ∧ weight ≤ 100.
Proof.
  intros category weight Hc.
  pose proof (naming_bounds tree). pose proof (modularity_bounds tree).
  pose proof (formatting_bounds code). pose proof (reusability_bounds tree).
  pose proof (best_practices_bounds tree).
  destruct (categories_cases _ _ Hc)
    as [[-> ->]|[[-> ->]|[[-> ->]|[[-> ->]|[[-> ->]|[-> ->]]]]]];
    [ exists (_check_naming_conventions tree)
    | exists (_check_modularity tree)
    | exists 20
    | exists (_check_formatting code)
    | exists (_check_reusability tree)
    | exists (_check_best_practices tree) ];
    (split; [reflexivity | lia]).
Qed.

Lemma all_zero_in_range :
  ∀ category weight,
    categories !! category = Some weight →
    ∃ s, all_zero !! category = Some s ∧ 0 ≤ s ≤ 0 ∧ 0 ≤ 100.
Proof.
  intros category weight Hcat. exists 0.
  destruct (categories_cases _ _ Hcat)
    as [[-> ->]|[[-> ->]|[[-> ->]|[[-> ->]|[[-> ->]|[-> ->]]]]]];
    (split; [reflexivity | lia]).
Qed.

Lemma blend_caps :
  combined_value 10 10 100 = 4 ∧ combined_value 15 15 100 = 6
  ∧ combined_value 20 20 100 = 9.
Proof. vm_compute. auto. Qed.

Lemma external_caps :
  combined_value 10 0 100 = 3 ∧ combined_value 15 0 100 = 4
  ∧ combined_value 20 0 100 = 6.
Proof. vm_compute. auto. Qed.

Lemma overall_of_six (n m c f r b : Z) :
  0 ≤ n + m + c + f + r + b ≤ 100 →
  _calculate_overall_score (six n m c f r b) = Ok (n + m + c + f + r + b).
Proof.
  intros Hsum. rewrite <- sum_values_six. apply calculate_overall_score_sum.
  by rewrite sum_values_six.
Qed.

Lemma combine_recommendations_all_zero (recs : list string) :
  _combine_recommendations iter_set all_zero recs
  = Ok (take 5 (iter_set (list_to_set
                            (snake_case_advice :: long_function_advice
                             :: recs)))).
Proof. reflexivity. Qed.

(** X15: a request for Python text that parses, answered by the model
    with scores from 0 to 100, returns a review after two parser calls
    and one model call.  The feedback is the response as it came, at
    most five recommendations are returned, and the overall score is the
    sum of the six combined values.  Because the static scores, which
    reach at most the maximum of their category, are blended as if they
    were out of 100, the six values are at most 4, 9, 9, 6, 6 and 9 and
    the overall score is at most 43. *)
Theorem python_request_is_capped (code language text : string)
    (context : option string) (tree : ast) (scores : gmap string Z)
    (log : list event) :
  normalized language = "python" →
  ast_parse code = Ok tree →
  generate_content (prompt_for code "python" context) = Ok text →
  _extract_scores text = Ok scores →
  scores_in_range scores →
  ∃ result n m c f r b,
    analyze_code ast_parse generate_content iter_set code language context log
    = (Ok result,
       (log ++ [EvParse code; EvParse code;
                EvGenerate (prompt_for code "python" context)])%list)
    ∧ detailed_feedback result = text
    ∧ (length (recommendations result) ≤ 5)%nat
    ∧ breakdown result = six n m c f r b
    ∧ 0 ≤ n ≤ 4 ∧ 0 ≤ m ≤ 9 ∧ 0 ≤ c ≤ 9 ∧ 0 ≤ f ≤ 6 ∧ 0 ≤ r ≤ 6 ∧ 0 ≤ b ≤ 9
    ∧ overall_score result = n + m + c + f + r + b
    ∧ 0 ≤ overall_score result ≤ 43.
Proof.
  intros Hpy Htree Hgen Hscores Hai.
  pose proof (analyze_python_parsed ast_parse code tree log Htree) as Hstatic.
  set (static := list_to_map _ : gmap string Z) in Hstatic.
  destruct (combine_metrics_capped static scores (fun w => w))
    as (n & m & c & f & r & b & Hcombined & Hn & Hm & Hc & Hf & Hr & Hb);
    [apply parsed_static_in_range | done |].
  destruct blend_caps as (H10 & H15 & H20).
  rewrite H10 in Hn. rewrite H20 in Hm, Hc, Hb. rewrite H15 in Hf, Hr.
  pose proof (naming_bounds tree) as Hnaming.
  pose proof (modularity_bounds tree) as Hmodularity.
  assert (Hrecs : ∃ recs,
    _combine_recommendations iter_set static (_extract_recommendations text)
    = Ok recs).
  { unfold _combine_recommendations, getitem.
    replace (static !! "naming") with (Some (_check_naming_conventions tree))
      by reflexivity.
    replace (static !! "modularity") with (Some (_check_modularity tree))
      by reflexivity.
    cbn [mbind result_bind]. by eexists. }
  destruct Hrecs as [recs Hrecs].
  pose proof (overall_of_six n m c f r b ltac:(lia)) as Hoverall.
  exists {| overall_score := n + m + c + f + r + b;
            breakdown := six n m c f r b;
            recommendations := take 5 recs;
            detailed_feedback := text |}, n, m, c, f, r, b.
  split.
  { rewrite (analyze_code_after_model code language text context static scores
               (six n m c f r b) recs (n + m + c + f + r + b) log _
               Hpy Hstatic Hgen Hscores Hcombined Hrecs Hoverall).
    by rewrite <- app_assoc. }
  cbn [detailed_feedback recommendations breakdown overall_score].
  split; [reflexivity|]. split; [rewrite length_take; lia|].
  split; [reflexivity|].
  split; [exact Hn|]. split; [exact Hm|]. split; [exact Hc|].
  split; [exact Hf|]. split; [exact Hr|]. split; [exact Hb|].
  split; [reflexivity | lia].
Qed.

(** X16: a request for Python text with a syntax error still returns a
    review, after one parser call and one model call, when the model
    answers with scores from 0 to 100: the static scores count as 0, so
    the six values are at most 3, 6, 6, 4, 4 and 6 and the overall score
    at most 29, and both static advices join the extracted
    recommendations before the cut to five. *)
Theorem unparseable_request_is_scored (code language text : string)
    (context : option string) (scores : gmap string Z) (log : list event) :
  normalized language = "python" →
  ast_parse code = Raise SyntaxError →
  generate_content (prompt_for code "python" context) = Ok text →
  _extract_scores text = Ok scores →
  scores_in_range scores →
  ∃ result n m c f r b,
    analyze_code ast_parse generate_content iter_set code language context log
    = (Ok result,
       (log ++ [EvParse code;
                EvGenerate (prompt_for code "python" context)])%list)
    ∧ detailed_feedback result = text
    ∧ recommendations result
      = take 5 (iter_set (list_to_set
                            (snake_case_advice :: long_function_advice
                             :: _extract_recommendations text)))
    ∧ breakdown result = six n m c f r b
    ∧ 0 ≤ n ≤ 3 ∧ 0 ≤ m ≤ 6 ∧ 0 ≤ c ≤ 6 ∧ 0 ≤ f ≤ 4 ∧ 0 ≤ r ≤ 4 ∧ 0 ≤ b ≤ 6
    ∧ overall_score result = n + m + c + f + r + b
    ∧ 0 ≤ overall_score result ≤ 29.
Proof.
  intros Hpy Hsyntax Hgen Hscores Hai.
  pose proof (analyze_python_syntax_error ast_parse code log Hsyntax)
    as Hstatic.
  change ((fun _ : Z => 0) <$> categories) with all_zero in Hstatic.
  destruct (combine_metrics_capped all_zero scores (fun _ => 0)
              all_zero_in_range Hai)
    as (n & m & c & f & r & b & Hcombined & Hn & Hm & Hc & Hf & Hr & Hb).
  destruct external_caps as (H10 & H15 & H20).
  rewrite H10 in Hn. rewrite H20 in Hm, Hc, Hb. rewrite H15 in Hf, Hr.
  pose proof (overall_of_six n m c f r b ltac:(lia)) as Hoverall.
  pose proof (combine_recommendations_all_zero (_extract_recommendations text))
    as Hrecs.
  exists {| overall_score := n + m + c + f + r + b;
            breakdown := six n m c f r b;
            recommendations :=
              take 5 (take 5 (iter_set (list_to_set
                            (snake_case_advice :: long_function_advice
                             :: _extract_recommendations text))));
            detailed_feedback := text |}, n, m, c, f, r, b.
  split.
  { rewrite (analyze_code_after_model code language text context all_zero scores
               (six n m c f r b) _ (n + m + c + f + r + b) log _
               Hpy Hstatic Hgen Hscores Hcombined Hrecs Hoverall).
    by rewrite <- app_assoc. }
  cbn [detailed_feedback recommendations breakdown overall_score].
  split; [reflexivity|]. split; [apply take_idemp|].
  split; [reflexivity|].
  split; [exact Hn|]. split; [exact Hm|]. split; [exact Hc|].
  split; [exact Hf|]. split; [exact Hr|]. split; [exact Hb|].
  split; [reflexivity | lia].
Qed.

(** X17: when the model call raises, the request raises the same
    exception after the static scorer has run; the model was called
    once and is not called again.  The same holds when the model
    answers and a line of its answer has a score of more than 4300
    digits: the request raises the [ValueError] of the extractor. *)
Theorem model_failure_fails_the_request (code language : string)
    (context : option string) (static : gmap string Z) (e : exception)
    (log log1 : list event) :
  normalized language = "python" →
  _analyze_python ast_parse code log = (Ok static, log1) →
  (generate_content (prompt_for code "python" context) = Raise e
   ∨ ∃ text, generate_content (prompt_for code "python" context) = Ok text
             ∧ _extract_scores text = Raise e) →
  analyze_code ast_parse generate_content iter_set code language context log
  = (Raise e, (log1 ++ [EvGenerate (prompt_for code "python" context)])%list).
Proof.
  intros Hpy Hstatic Hgen.
  rewrite analyze_code_python by done.
  rewrite (bind_ok _ _ _ _ _ Hstatic).
  apply bind_raise. destruct Hgen as [Hgen|(text & Hgen & Hscores)].
  - by apply get_ai_analysis_raise.
  - by apply (get_ai_analysis_bad_scores _ _ text).
Qed.

(** X18: a request for JavaScript ([javascript], [js] or [jsx]) always
    raises [AttributeError], the reviewer having no static scorer for
    it; neither the parser nor the model is called. *)
Theorem javascript_request_fails (code language : string)
    (context : option string) (log : list event) :
  normalized language = "javascript" →
  analyze_code ast_parse generate_content iter_set code language context log
  = (Raise (AttributeError
       "'AiCodeReviewer' object has no attribute '_analyze_javascript'"),
     log).
Proof.
  intros Hjs. unfold analyze_code. rewrite language_map_get, Hjs.
  by apply bind_raise.
Qed.

(** X19: when the parser raises anything but [SyntaxError], the request
    raises the same exception after that one parser call, and the model
    is not called. *)
Theorem parser_failure_fails_the_request (code language : string)
    (context : option string) (e : exception) (log : list event) :
  normalized language = "python" →
  ast_parse code = Raise e → is_SyntaxError e = false →
  analyze_code ast_parse generate_content iter_set code language context log
  = (Raise e, (log ++ [EvParse code])%list).
Proof.
  intros Hpy Hparse He.
  rewrite analyze_code_python by done.
  apply bind_raise. by apply analyze_python_other_error.
Qed.

Lemma unsupported_language_raises (code language : string)
    (context : option string) (log : list event) :
  normalized language ≠ "python" →
  normalized language ≠ "javascript" →
  analyze_code ast_parse generate_content iter_set code language context log
  = (Raise (ValueError ("Unsupported language: " ++ normalized language)), log).
Proof.
  intros Hpy Hjs.
  unfold analyze_code. rewrite language_map_get.
  pose proof (normalized_not_jsx language) as Hjsx.
  apply bind_raise.
  rewrite (proj2 (String.eqb_neq _ _) Hpy).
  rewrite bool_decide_eq_false_2; [reflexivity|].
  rewrite !elem_of_cons, elem_of_nil. tauto.
Qed.

Lemma combined_score_overflow (s : Z) :
  0 ≤ s ≤ 10 →
  combined_score s (10 ^ 309) 10
  = Raise (OverflowError "int too large to convert to float").
Proof.
  intros Hs.
  assert (Hcases : s = 0 ∨ s = 1 ∨ s = 2 ∨ s = 3 ∨ s = 4 ∨ s = 5 ∨ s = 6
                   ∨ s = 7 ∨ s = 8 ∨ s = 9 ∨ s = 10) by lia.
  destruct Hcases as [->|[->|[->|[->|[->|[->|[->|[->|[->|[->| ->]]]]]]]]]];
    vm_compute; reflexivity.
Qed.

(** X20: a naming score of 1 followed by 309 zeros in the answer of the
    model, which the extractor accepts, makes the request for Python
    text that parses raise [OverflowError]: the score combiner
    multiplies the score by a float.  Nothing is returned, after two
    parser calls and the model call. *)
Theorem overflowing_score_fails_the_request (code language text : string)
    (context : option string) (tree : ast) (scores : gmap string Z)
    (log : list event) :
  normalized language = "python" →
  ast_parse code = Ok tree →
  generate_content (prompt_for code "python" context) = Ok text →
  _extract_scores text = Ok scores →
  scores !! "naming" = Some (10 ^ 309) →
  analyze_code ast_parse generate_content iter_set code language context log
  = (Raise (OverflowError "int too large to convert to float"),
     (log ++ [EvParse code; EvParse code;
              EvGenerate (prompt_for code "python" context)])%list).
Proof.
  intros Hpy Htree Hgen Hscores Hnaming.
  pose proof (analyze_python_parsed ast_parse code tree log Htree) as Hstatic.
  set (static := list_to_map _ : gmap string Z) in Hstatic.
  rewrite analyze_code_python by done.
  rewrite (bind_ok _ _ _ _ _ Hstatic).
  rewrite (bind_ok _ _ _ _ _ (get_ai_analysis_ok _ _ _ _ _ _ Hgen Hscores)).
  cbn [ai_scores ai_recommendations ai_detailed_feedback].
  assert (Hcombined : _combine_metrics static scores
            = Raise (OverflowError "int too large to convert to float")).
  { unfold _combine_metrics, categories_items. cbn [dict_comprehension].
    unfold get.
    replace (static !! "naming") with (Some (_check_naming_conventions tree))
      by reflexivity.
    rewrite Hnaming. cbn [from_option id].
    by rewrite (combined_score_overflow _ (naming_bounds tree)). }
  rewrite Hcombined, <- app_assoc. reflexivity.
Qed.

End Runs.
Lemma sample_scores_in_range : scores_in_range (six 90 90 90 90 90 90).
Proof.
  intros category v Hv.
  assert (Hin : (category, v) ∈ map_to_list (six 90 90 90 90 90 90))
    by by apply elem_of_map_to_list.
  apply list_elem_of_In in Hin. vm_compute in Hin.
  intuition (simplify_eq; lia).
Qed.

Lemma python_request_is_capped_witness :
  ∃ result n m c f r b,
    analyze_code (fun _ => Ok sample_tree) (fun _ => Ok sample_response)
      elements sample_code "py" None []
    = (Ok result,
       ([] ++ [EvParse sample_code; EvParse sample_code;
               EvGenerate (prompt_for sample_code "python" None)])%list)
    ∧ detailed_feedback result = sample_response
    ∧ (length (recommendations result) ≤ 5)%nat
    ∧ breakdown result = six n m c f r b
    ∧ 0 ≤ n ≤ 4 ∧ 0 ≤ m ≤ 9 ∧ 0 ≤ c ≤ 9 ∧ 0 ≤ f ≤ 6 ∧ 0 ≤ r ≤ 6 ∧ 0 ≤ b ≤ 9
    ∧ overall_score result = n + m + c + f + r + b
    ∧ 0 ≤ overall_score result ≤ 43.
Proof.
  apply (python_request_is_capped (fun _ => Ok sample_tree)
           (fun _ => Ok sample_response) elements
           sample_code "py" sample_response None sample_tree
           (six 90 90 90 90 90 90) []).
  - vm_compute. reflexivity.
  - reflexivity.
  - reflexivity.
  - vm_compute. reflexivity.
  - exact sample_scores_in_range.
Defined.

Lemma unparseable_request_is_scored_witness :
  ∃ result n m c f r b,
    analyze_code (fun _ => Raise SyntaxError) (fun _ => Ok sample_response)
      elements "def f(:" "python" None []
    = (Ok result,
       ([] ++ [EvParse "def f(:";
               EvGenerate (prompt_for "def f(:" "python" None)])%list)
    ∧ detailed_feedback result = sample_response
    ∧ recommendations result
      = take 5 (elements (list_to_set
                            (snake_case_advice :: long_function_advice
                             :: _extract_recommendations sample_response)
                          : gset string))
    ∧ breakdown result = six n m c f r b
    ∧ 0 ≤ n ≤ 3 ∧ 0 ≤ m ≤ 6 ∧ 0 ≤ c ≤ 6 ∧ 0 ≤ f ≤ 4 ∧ 0 ≤ r ≤ 4 ∧ 0 ≤ b ≤ 6
    ∧ overall_score result = n + m + c + f + r + b
    ∧ 0 ≤ overall_score result ≤ 29.
Proof.
  apply (unparseable_request_is_scored (fun _ => Raise SyntaxError)
           (fun _ => Ok sample_response) elements
           "def f(:" "python" sample_response None
           (six 90 90 90 90 90 90) []).
  - vm_compute. reflexivity.
  - reflexivity.
  - reflexivity.
  - vm_compute. reflexivity.
  - exact sample_scores_in_range.
Defined.

Lemma model_failure_fails_the_request_witness :
  analyze_code (fun _ => Raise SyntaxError)
    (fun _ => Ok long_score_line) elements
    "def f(:" "py" None []
  = (Raise (ValueError (Builtins.exceeds_the_limit 4301)),
     ([EvParse "def f(:"]
      ++ [EvGenerate (prompt_for "def f(:" "python" None)])%list).
Proof.
  apply (model_failure_fails_the_request (fun _ => Raise SyntaxError)
           (fun _ => Ok long_score_line) elements
           "def f(:" "py" None all_zero
           (ValueError (Builtins.exceeds_the_limit 4301))
           [] [EvParse "def f(:"]).
  - vm_compute. reflexivity.
  - reflexivity.
  - right. exists long_score_line. split; [reflexivity|].
    vm_compute. reflexivity.
Defined.

Lemma javascript_request_fails_witness :
  analyze_code (fun _ => Raise SyntaxError) (fun _ => Ok "") elements
    "let x = 1" "jsx" None []
  = (Raise (AttributeError
       "'AiCodeReviewer' object has no attribute '_analyze_javascript'"),
     []).
Proof.
  apply (javascript_request_fails (fun _ => Raise SyntaxError)
           (fun _ => Ok "") elements "let x = 1" "jsx" None []).
  vm_compute. reflexivity.
Defined.

Lemma parser_failure_fails_the_request_witness :
  analyze_code (fun _ => Raise (ValueError "source code string cannot contain null bytes"))
    (fun _ => Ok "") elements "x = 1" "py" None []
  = (Raise (ValueError "source code string cannot contain null bytes"),
     ([] ++ [EvParse "x = 1"])%list).
Proof.
  apply (parser_failure_fails_the_request
           (fun _ => Raise (ValueError "source code string cannot contain null bytes"))
           (fun _ => Ok "") elements "x = 1" "py" None
           (ValueError "source code string cannot contain null bytes") []).
  - vm_compute. reflexivity.
  - reflexivity.
  - reflexivity.
Defined.

Lemma overflowing_score_fails_the_request_witness :
  analyze_code (fun _ => Ok sample_tree) (fun _ => Ok huge_score_line)
    elements sample_code "py" None []
  = (Raise (OverflowError "int too large to convert to float"),
     ([] ++ [EvParse sample_code; EvParse sample_code;
             EvGenerate (prompt_for sample_code "python" None)])%list).
Proof.
  apply (overflowing_score_fails_the_request (fun _ => Ok sample_tree)
           (fun _ => Ok huge_score_line) elements
           sample_code "py" huge_score_line None sample_tree
           {[ "naming" := 10 ^ 309 ]} []).
  - vm_compute. reflexivity.
  - reflexivity.
  - reflexivity.
  - vm_compute. reflexivity.
  - vm_compute. reflexivity.
Defined.

End RequestMore.

(** ** The HTTP endpoints *)

Module MainFacts.
Import Main.

Section EndpointFacts.

Variable ast_parse : string → result ast.
Variable generate_content : string → result string.
Variable iter_set : gset string → list string.
Variable decode : list Byte.byte → result string.
Variable str : thrown → string.

Lemma reported_status (prefix : string) (body : T CodeReviewResponse)
    (log log' : list event) (status_code : Z) (detail : string) :
  reported str prefix body log = (Raised status_code detail, log') →
  status_code = 500.
Proof.
  unfold reported. destruct (body log) as [[e|response] log1]; congruence.
Qed.

(** X21: the code-review endpoint answers with the review of the
    reviewer, the language as the request gave it and no file name, and
    turns every exception of the reviewer into an [HTTPException] with
    status 500 whose detail is "Error analyzing code: " followed by the
    text of the exception; it fails with no other status, 400 for an
    unsupported language included; the calls made are those of the
    reviewer. *)
Theorem code_review_endpoint_outcomes (request : CodeReviewRequest)
    (log : list event) :
  let run :=
    code_reviewer_analyze_code ast_parse generate_content iter_set
      (code request) (language request) (context request) log in
  (∀ result log',
     run = (Ok result, log') →
     Main.analyze_code ast_parse generate_content iter_set str request log
     = (Returned {| response_overall_score := overall_score result;
                   response_breakdown := breakdown result;
                   response_recommendations := recommendations result;
                   response_detailed_feedback := detailed_feedback result;
                   response_file_name := None;
                   response_language := Some (language request) |}, log'))
  ∧ (∀ e log',
       run = (Raise e, log') →
       Main.analyze_code ast_parse generate_content iter_set str request log
       = (Raised 500 ("Error analyzing code: " ++ str (PyExc e)), log'))
  ∧ (∀ status_code detail log',
       Main.analyze_code ast_parse generate_content iter_set str request log
       = (Raised status_code detail, log') →
       status_code = 500)
  ∧ (normalized (language request) ≠ "python" →
     normalized (language request) ≠ "javascript" →
     Main.analyze_code ast_parse generate_content iter_set str request log
     = (Raised 500 ("Error analyzing code: "
                  ++ str (PyExc (ValueError
                       ("Unsupported language: "
                        ++ normalized (language request))))), log)).
Proof.
  intros run.
  assert (Hok : ∀ result log',
    run = (Ok result, log') →
    Main.analyze_code ast_parse generate_content iter_set str request log
    = (Returned {| response_overall_score := overall_score result;
                  response_breakdown := breakdown result;
                  response_recommendations := recommendations result;
                  response_detailed_feedback := detailed_feedback result;
                  response_file_name := None;
                  response_language := Some (language request) |}, log')).
  { intros result log' Hrun. unfold Main.analyze_code, reported.
    unfold mbind, T_bind, of_reviewer. fold run. by rewrite Hrun. }
  assert (Hraise : ∀ e log',
    run = (Raise e, log') →
    Main.analyze_code ast_parse generate_content iter_set str request log
    = (Raised 500 ("Error analyzing code: " ++ str (PyExc e)), log')).
  { intros e log' Hrun. unfold Main.analyze_code, reported.
    unfold mbind, T_bind, of_reviewer. fold run. by rewrite Hrun. }
  split; [exact Hok|]. split; [exact Hraise|]. split.
  - intros status_code detail log' H. by apply reported_status in H.
  - intros Hpy Hjs. apply Hraise. unfold run, code_reviewer_analyze_code.
    by apply RequestMore.unsupported_language_raises.
Qed.

(** The upload endpoint once the file has been read and has a name
    with an accepted extension. *)
Lemma upload_code_accepted (file : UploadFile) (content : list Byte.byte)
    (name : string) (log : list event) :
  read file = Ok content → filename file = Some name →
  extension name ∈ ["py"; "js"; "jsx"] →
  upload_code ast_parse generate_content iter_set decode str file log
  = match decode content with
    | Raise e => (Raised 500 ("Error processing file: " ++ str (PyExc e)), log)
    | Ok text =>
        match code_reviewer_analyze_code ast_parse generate_content iter_set
                text (extension name) (Some ("File: " ++ name)) log with
        | (Ok result, log') =>
            (Returned {| response_overall_score := overall_score result;
                        response_breakdown := breakdown result;
                        response_recommendations := recommendations result;
                        response_detailed_feedback := detailed_feedback result;
                        response_file_name := None;
                        response_language := Some (extension name) |}, log')
        | (Raise e, log') =>
            (Raised 500 ("Error processing file: " ++ str (PyExc e)), log')
        end
    end.
Proof.
  intros Hread Hname Hext. unfold upload_code, reported.
  unfold mbind, T_bind, of_result, of_reviewer, lift. rewrite Hread, Hname.
  cbn [mret T_ret]. rewrite bool_decide_eq_true_2 by done. cbn [negb].
  destruct (decode content) as [text|e]; [|reflexivity].
  by destruct (code_reviewer_analyze_code _ _ _ _ _ _ _) as [[result|e] log'].
Qed.

(** X22: the upload endpoint never answers with status 400.  A file whose
    name does not end in [.py], [.js] or [.jsx] (the text after the last
    dot, or the whole name when it has no dot) is refused before the
    reviewer is called, but the [HTTPException] with status 400 raised
    for it is caught by the handler of the endpoint itself and replaced
    by one with status 500, whose detail quotes it.  A file that cannot
    be read, has no name or cannot be decoded gives status 500 as well,
    and so does every exception of the reviewer; an accepted file is
    reviewed with its extension as the language and "File: " and its
    name as the context. *)
Theorem upload_endpoint_outcomes (file : UploadFile) (log : list event) :
  let upload :=
    upload_code ast_parse generate_content iter_set decode str file log in
  (∀ e, read file = Raise e →
        upload = (Raised 500 ("Error processing file: " ++ str (PyExc e)), log))
  ∧ (∀ content,
       read file = Ok content → filename file = None →
       upload
       = (Raised 500 ("Error processing file: "
                    ++ str (PyExc (AttributeError
                         "'NoneType' object has no attribute 'split'"))), log))
  ∧ (∀ content name,
       read file = Ok content → filename file = Some name →
       extension name ∉ ["py"; "js"; "jsx"] →
       upload
       = (Raised 500 ("Error processing file: "
                    ++ str (HTTPException 400 unsupported_file_type)), log))
  ∧ (∀ content name text result log',
       read file = Ok content → filename file = Some name →
       extension name ∈ ["py"; "js"; "jsx"] →
       decode content = Ok text →
       code_reviewer_analyze_code ast_parse generate_content iter_set
         text (extension name) (Some ("File: " ++ name)) log
       = (Ok result, log') →
       upload
       = (Returned {| response_overall_score := overall_score result;
                     response_breakdown := breakdown result;
                     response_recommendations := recommendations result;
                     response_detailed_feedback := detailed_feedback result;
                     response_file_name := None;
                     response_language := Some (extension name) |}, log'))
  ∧ (∀ content name text e log',
       read file = Ok content → filename file = Some name →
       extension name ∈ ["py"; "js"; "jsx"] →
       decode content = Ok text →
       code_reviewer_analyze_code ast_parse generate_content iter_set
         text (extension name) (Some ("File: " ++ name)) log
       = (Raise e, log') →
       upload
       = (Raised 500 ("Error processing file: " ++ str (PyExc e)), log'))
  ∧ (∀ status_code detail log',
       upload = (Raised status_code detail, log') → status_code = 500).
Proof.
  intros upload. split; [|split; [|split; [|split; [|split]]]].
  - intros e Hread. unfold upload, upload_code, reported.
    unfold mbind, T_bind, of_result, of_reviewer, lift. by rewrite Hread.
  - intros content Hread Hname. unfold upload, upload_code, reported.
    unfold mbind, T_bind, of_result, of_reviewer, lift, throw.
    by rewrite Hread, Hname.
  - intros content name Hread Hname Hext. unfold upload, upload_code, reported.
    unfold mbind, T_bind, of_result, of_reviewer, lift, throw.
    rewrite Hread, Hname. cbn [mret T_ret].
    by rewrite bool_decide_eq_false_2.
  - intros content name text result log' Hread Hname Hext Hdecode Hrun.
    unfold upload. rewrite (upload_code_accepted file content name) by done.
    by rewrite Hdecode, Hrun.
  - intros content name text e log' Hread Hname Hext Hdecode Hrun.
    unfold upload. rewrite (upload_code_accepted file content name) by done.
    by rewrite Hdecode, Hrun.
  - intros status_code detail log' H. by apply reported_status in H.
Qed.

(** The part of a file name the upload endpoint takes for the
    language. *)
Lemma extension_examples :
  extension "review.py" = "py" ∧ extension "a.b.jsx" = "jsx"
  ∧ extension "py" = "py" ∧ extension "notes.txt" = "txt"
  ∧ extension "Main.PY" = "PY" ∧ extension "archive." = "".
Proof. vm_compute. auto 10. Qed.

End EndpointFacts.

Lemma upload_endpoint_outcomes_witness :
  upload_code (fun _ => Raise SyntaxError) (fun _ => Ok "") elements
    (fun _ => Ok "") (fun _ => "400: Unsupported")
    {| filename := Some "notes.txt"; read := Ok [] |} []
  = (Raised 500 ("Error processing file: " ++ "400: Unsupported"), []).
Proof.
  apply (proj1 (proj2 (proj2 (upload_endpoint_outcomes
           (fun _ => Raise SyntaxError) (fun _ => Ok "") elements
           (fun _ => Ok "") (fun _ => "400: Unsupported")
           {| filename := Some "notes.txt"; read := Ok [] |} [])))
         [] "notes.txt").
  - reflexivity.
  - reflexivity.
  - vm_compute. intros H. apply list_elem_of_In in H. vm_compute in H.
    intuition discriminate.
Defined.

Lemma code_review_endpoint_outcomes_witness :
  Main.analyze_code (fun _ => Raise SyntaxError) (fun _ => Ok "") elements
    (fun _ => "Unsupported language: rb")
    {| code := "puts 1"; language := "rb"; context := None;
       request_file_name := None |} []
  = (Raised 500 ("Error analyzing code: " ++ "Unsupported language: rb"), []).
Proof.
  apply (proj2 (proj2 (proj2 (code_review_endpoint_outcomes
           (fun _ => Raise SyntaxError) (fun _ => Ok "") elements
           (fun _ => "Unsupported language: rb")
           {| code := "puts 1"; language := "rb"; context := None;
              request_file_name := None |} [])))).
  - vm_compute. discriminate.
  - vm_compute. discriminate.
Defined.

End MainFacts.
